(** * Ticket and payment lifecycle of the customer-engagement backend

    A shallow embedding of the two Mongoose models that carry the lifecycle
    logic of the backend,

    - [Payment]        : the payment schema, its pre-save hook and its methods
                         [initiateRefund] and [updateStatus];
    - [SupportRequest] : the ticket schema, its pre-save hook and its methods
                         [addComment], [assignToAgent], [resolve], [reopen]
                         and [addRating];

    followed by the properties of the lifecycle that hold, or fail, on them.
    The models come with their virtuals and their queries ([ageInDays],
    [isResponseOverdue], [isResolutionOverdue], [getStatistics],
    [getEMIDefaulters]), and the handlers of the routes that call the
    methods come after them ([Auth], [SupportRoutes], [PaymentRoutes]), with
    their own properties at the end.

    Conventions of the embedding.

    - A document is a record; a method is a function from the document
      ([this]) to a [completion] and the document after the call.  A
      [throw] before any assignment yields [Threw] and the document as it
      was.
    - An instant is a number of milliseconds since the epoch ([Z]), as
      [Date.prototype.getTime] gives it.  One call of a method happens at one
      reading of the clock: every [new Date()] and [Date.now] of the call,
      the timestamps option of the schema included, reads the same [Clock].
    - A JavaScript [Number] holding a count or an amount is a [Z]; a duration
      in hours, the quotient of a number of milliseconds by [1000 * 60 * 60],
      is the rational of that quotient ([Q]).
    - An optional path of a schema is an [option]; [None] is [undefined].
    - Documents and arguments are taken as the schema types them; the
      built-in validators of the schema (required, enum, min, max) belong to
      the store and are not run here. *)

From Stdlib Require Import ZArith QArith String List Bool Lia Ascii DecimalString.
Import ListNotations.

Local Open Scope Z_scope.
Local Open Scope string_scope.

(** ** What the models share *)

(** A [mongoose.Schema.Types.ObjectId]. *)
Definition ObjectId := Z.

(** One reading of the clock: [new Date()], with the accessors the hooks use. *)
Record Clock := mkClock {
  getTime : Z;
  getFullYear : Z;
  getMonth : Z
}.

(** How a call of a method ends: the promise of [this.save()] is fulfilled,
    or the method threw an [Error] with a message. *)
Inductive completion :=
| Fulfilled
| Threw (message : string).

(** Truthiness of an optional string: [undefined], [null] and the empty
    string are falsy. *)
Definition truthy (s : option string) : bool :=
  match s with
  | Some "" => false
  | Some _ => true
  | None => false
  end.

(** [String(n)] and [n.toString()] of an integer. *)
Definition toString (n : Z) : string :=
  NilZero.string_of_int (Z.to_int n).

Fixpoint repeat_char (c : ascii) (n : nat) : string :=
  match n with
  | O => ""
  | S k => String c (repeat_char c k)
  end.

(** [s.padStart(targetLength, c)] with a pad string of one character. *)
Definition padStart (s : string) (targetLength : nat) (c : ascii) : string :=
  repeat_char c (targetLength - String.length s) ++ s.

(** The factor [1000 * 60 * 60] of the hooks: milliseconds in an hour. *)
Definition ms_per_hour : Z := 1000 * 60 * 60.

(** [Math.abs(a - b) / (1000 * 60 * 60)] on two instants. *)
Definition elapsed_hours (a b : Z) : Q :=
  Qmake (Z.abs (a - b)) (Z.to_pos ms_per_hour).

(** The factor [1000 * 60 * 60 * 24] of the virtuals: milliseconds in a day. *)
Definition ms_per_day : Z := 1000 * 60 * 60 * 24.

(** [Math.ceil(a / b)] on a number of milliseconds [a] and a positive
    factor [b]. *)
Definition ceil_quotient (a b : Z) : Z := - ((- a) / b).

(** ** The payment model *)

Module Payment.

Inductive PaymentType := booking | down_payment | emi | full_payment | other.

Inductive Method := card | bank_transfer | upi | cash | cheque.

Inductive Status := pending | processing | success | failed | refunded.

Inductive RefundStatus := initiated | refund_processing | completed | refund_failed.

Record GatewayDetails := mkGateway {
  provider : option string;
  orderId : option string;
  paymentId : option string;
  signature : option string;
  transactionId : option string
}.

Record Invoice := mkInvoice {
  number : option string;
  url : option string;
  generatedAt : option Z
}.

Record Metadata := mkMetadata {
  unitNumber : option string;
  paymentPlan : option string;
  installmentNumber : option Z;
  totalInstallments : option Z;
  emiAmount : option Z;
  nextDueDate : option Z;
  description : option string
}.

Record RefundDetails := mkRefund {
  refund_amount : option Z;
  refund_reason : option string;
  refund_date : option Z;
  refundId : option string;
  refund_status : option RefundStatus
}.

(** A payment document.  [isNew] and [statusModified] are the two pieces of
    Mongoose's bookkeeping that the hook reads: [this.isNew] and
    [this.isModified('status')]. *)
Record Document := mkPayment {
  customerId : ObjectId;
  projectId : ObjectId;
  amount : Z;
  currency : string;
  paymentType : PaymentType;
  method : Method;
  gatewayDetails : GatewayDetails;
  status : Status;
  receiptNumber : option string;
  invoice : Invoice;
  metadata : Metadata;
  refundDetails : RefundDetails;
  failureReason : option string;
  paidAt : option Z;
  attempts : Z;
  notes : option string;
  createdAt : option Z;
  updatedAt : option Z;
  isNew : bool;
  statusModified : bool
}.

(** The [details] argument of [updateStatus]; [{}] is [no_details]. *)
Record Details := mkDetails {
  details_paymentId : option string;
  details_signature : option string;
  details_reason : option string
}.

Definition no_details : Details := mkDetails None None None.

Definition Status_eqb (a b : Status) : bool :=
  match a, b with
  | pending, pending | processing, processing | success, success
  | failed, failed | refunded, refunded => true
  | _, _ => false
  end.

(** *** Assignments to the paths of a document *)

Definition set_gatewayDetails (v : GatewayDetails) (this : Document) : Document :=
  mkPayment (customerId this) (projectId this) (amount this) (currency this)
    (paymentType this) (method this) v (status this) (receiptNumber this)
    (invoice this) (metadata this) (refundDetails this) (failureReason this)
    (paidAt this) (attempts this) (notes this) (createdAt this) (updatedAt this)
    (isNew this) (statusModified this).

Definition set_gateway_paymentId (v : option string) (this : Document) : Document :=
  let g := gatewayDetails this in
  set_gatewayDetails
    (mkGateway (provider g) (orderId g) v (signature g) (transactionId g)) this.

Definition set_gateway_signature (v : option string) (this : Document) : Document :=
  let g := gatewayDetails this in
  set_gatewayDetails
    (mkGateway (provider g) (orderId g) (paymentId g) v (transactionId g)) this.

(** [this.status = v].  Mongoose marks the path modified when the document is
    new or the value differs from the one it had; a path once marked stays
    marked until the document is saved. *)
Definition set_status (v : Status) (this : Document) : Document :=
  mkPayment (customerId this) (projectId this) (amount this) (currency this)
    (paymentType this) (method this) (gatewayDetails this) v (receiptNumber this)
    (invoice this) (metadata this) (refundDetails this) (failureReason this)
    (paidAt this) (attempts this) (notes this) (createdAt this) (updatedAt this)
    (isNew this)
    (statusModified this || isNew this || negb (Status_eqb v (status this))).

Definition set_receiptNumber (v : option string) (this : Document) : Document :=
  mkPayment (customerId this) (projectId this) (amount this) (currency this)
    (paymentType this) (method this) (gatewayDetails this) (status this) v
    (invoice this) (metadata this) (refundDetails this) (failureReason this)
    (paidAt this) (attempts this) (notes this) (createdAt this) (updatedAt this)
    (isNew this) (statusModified this).

Definition set_invoice (v : Invoice) (this : Document) : Document :=
  mkPayment (customerId this) (projectId this) (amount this) (currency this)
    (paymentType this) (method this) (gatewayDetails this) (status this)
    (receiptNumber this) v (metadata this) (refundDetails this)
    (failureReason this) (paidAt this) (attempts this) (notes this)
    (createdAt this) (updatedAt this) (isNew this) (statusModified this).

Definition set_refundDetails (v : RefundDetails) (this : Document) : Document :=
  mkPayment (customerId this) (projectId this) (amount this) (currency this)
    (paymentType this) (method this) (gatewayDetails this) (status this)
    (receiptNumber this) (invoice this) (metadata this) v (failureReason this)
    (paidAt this) (attempts this) (notes this) (createdAt this) (updatedAt this)
    (isNew this) (statusModified this).

Definition set_failureReason (v : option string) (this : Document) : Document :=
  mkPayment (customerId this) (projectId this) (amount this) (currency this)
    (paymentType this) (method this) (gatewayDetails this) (status this)
    (receiptNumber this) (invoice this) (metadata this) (refundDetails this) v
    (paidAt this) (attempts this) (notes this) (createdAt this) (updatedAt this)
    (isNew this) (statusModified this).

Definition set_paidAt (v : option Z) (this : Document) : Document :=
  mkPayment (customerId this) (projectId this) (amount this) (currency this)
    (paymentType this) (method this) (gatewayDetails this) (status this)
    (receiptNumber this) (invoice this) (metadata this) (refundDetails this)
    (failureReason this) v (attempts this) (notes this) (createdAt this)
    (updatedAt this) (isNew this) (statusModified this).

Definition set_attempts (v : Z) (this : Document) : Document :=
  mkPayment (customerId this) (projectId this) (amount this) (currency this)
    (paymentType this) (method this) (gatewayDetails this) (status this)
    (receiptNumber this) (invoice this) (metadata this) (refundDetails this)
    (failureReason this) (paidAt this) v (notes this) (createdAt this)
    (updatedAt this) (isNew this) (statusModified this).

(** What the store does around the hooks of one [save]: the timestamps
    option stamps the document before the hooks run, and once the document is
    written it is no longer new and no path is modified. *)
Definition stamp (now : Z) (this : Document) : Document :=
  mkPayment (customerId this) (projectId this) (amount this) (currency this)
    (paymentType this) (method this) (gatewayDetails this) (status this)
    (receiptNumber this) (invoice this) (metadata this) (refundDetails this)
    (failureReason this) (paidAt this) (attempts this) (notes this)
    (if isNew this then
       match createdAt this with Some c => Some c | None => Some now end
     else createdAt this)
    (Some now) (isNew this) (statusModified this).

Definition written (this : Document) : Document :=
  mkPayment (customerId this) (projectId this) (amount this) (currency this)
    (paymentType this) (method this) (gatewayDetails this) (status this)
    (receiptNumber this) (invoice this) (metadata this) (refundDetails this)
    (failureReason this) (paidAt this) (attempts this) (notes this)
    (createdAt this) (updatedAt this) false false.

(** *** The hook and the methods

    [date] is the reading of the clock and [random] the value of
    [Math.floor(Math.random() * 10000)] at this call. *)
Section Call.

Variable date : Clock.
Variable random : Z.

(** [paymentSchema.pre('save', ...)], block by block in the order of the
    hook. *)

(** Generate receipt number. *)
Definition generate_receipt_number (this : Document) : Document :=
  if Status_eqb (status this) success && negb (truthy (receiptNumber this))
  then
    let year := getFullYear date in
    let month := padStart (toString (getMonth date + 1)) 2 "0" in
    let random := padStart (toString random) 4 "0" in
    let this :=
      set_receiptNumber (Some ("REC" ++ toString year ++ month ++ random)) this in
    set_paidAt (Some (getTime date)) this
  else this.

(** Update attempts count. *)
Definition update_attempts_count (this : Document) : Document :=
  if statusModified this && Status_eqb (status this) failed
  then set_attempts (attempts this + 1) this
  else this.

Definition pre_save (this : Document) : Document :=
  let this := generate_receipt_number this in
  update_attempts_count this.

(** [this.save()]. *)
Definition save (this : Document) : completion * Document :=
  (Fulfilled, written (pre_save (stamp (getTime date) this))).

(** [paymentSchema.methods.initiateRefund]. *)
Definition initiateRefund (amount_ : Z) (reason : string) (this : Document)
  : completion * Document :=
  if negb (Status_eqb (status this) success)
  then (Threw "Can only refund successful payments", this)
  else if (amount this <? amount_)%Z
  then (Threw "Refund amount cannot exceed payment amount", this)
  else
    let this :=
      set_refundDetails
        (mkRefund (Some amount_) (Some reason) (Some (getTime date)) None
           (Some initiated)) this in
    save this.

(** [paymentSchema.methods.updateStatus]. *)
Definition updateStatus (status_ : Status) (details : Details) (this : Document)
  : completion * Document :=
  let this := set_status status_ this in
  let this :=
    match status_ with
    | success =>
        let this := set_paidAt (Some (getTime date)) this in
        let this :=
          if truthy (details_paymentId details)
          then set_gateway_paymentId (details_paymentId details) this
          else this in
        if truthy (details_signature details)
        then set_gateway_signature (details_signature details) this
        else this
    | failed =>
        let this :=
          set_failureReason
            (if truthy (details_reason details)
             then details_reason details
             else Some "Payment failed") this in
        set_attempts (attempts this + 1) this
    | _ => this
    end in
  save this.

End Call.

(** *** Sequences of calls

    The calls a payment receives from the request layer: the two methods, and
    a plain [save] after a direct assignment to [invoice]. *)
Inductive Call :=
| CallSave
| CallSetInvoice (v : Invoice)
| CallInitiateRefund (amount_ : Z) (reason : string)
| CallUpdateStatus (status_ : Status) (details : Details).

Definition call (date : Clock) (random : Z) (c : Call) (this : Document)
  : completion * Document :=
  match c with
  | CallSave => save date random this
  | CallSetInvoice v => save date random (set_invoice v this)
  | CallInitiateRefund a r => initiateRefund date random a r this
  | CallUpdateStatus s d => updateStatus date random s d this
  end.

(** A history: each call with the clock reading and the random draw it sees. *)
Fixpoint calls (h : list (Clock * Z * Call)) (this : Document) : Document :=
  match h with
  | [] => this
  | (date, random, c) :: h' => calls h' (snd (call date random c this))
  end.

(** *** Virtuals and queries *)


(** The virtual [ageInDays], read when the clock shows [now]; [None] is the
    [null] of a payment that has no [paidAt]. *)
Definition ageInDays (now : Z) (this : Document) : option Z :=
  match paidAt this with
  | None => None
  | Some paid =>
      let diffTime := Z.abs (now - paid) in
      let diffDays := ceil_quotient diffTime ms_per_day in
      Some diffDays
  end.


End Payment.

(** ** The support-request (ticket) model *)

Module SupportRequest.

Inductive TicketType := feedback | grievance | suggestion | technical | billing.

Inductive Priority := low | medium | high | urgent.

Inductive Status := open | in_review | pending_customer | resolved | closed.

(** A path declared [ObjectId] with [ref: 'User'].  It holds the id, or, when
    the path was populated or a user document was assigned to it, the user
    with the [role] the hook reads. *)
Inductive UserRef :=
| Id (id : ObjectId)
| User (id : ObjectId) (role : string).

Record Attachment := mkAttachment {
  name : option string;
  url : option string;
  type : option string;
  uploadedAt : Z
}.

Record CommentAttachment := mkCommentAttachment {
  attachment_name : option string;
  attachment_url : option string
}.

Record Comment := mkComment {
  text : string;
  author : UserRef;
  isInternal : bool;
  comment_attachments : list CommentAttachment;
  comment_createdAt : Z
}.

Record Resolution := mkResolution {
  resolution_text : option string;
  resolvedBy : option UserRef;
  resolvedAt : option Z
}.

Record Rating := mkRating {
  score : option Z;
  rating_feedback : option string;
  ratedAt : option Z
}.

Record Sla := mkSla {
  responseTime : option Q;
  resolutionTime : option Q;
  breached : bool;
  responseDeadline : option Z;
  resolutionDeadline : option Z
}.

Record Document := mkTicket {
  customerId : UserRef;
  ticketNumber : option string;
  ticketType : TicketType;
  category : option string;
  subject : string;
  description : string;
  priority : Priority;
  status : Status;
  assignedTo : option UserRef;
  attachments : list Attachment;
  comments : list Comment;
  resolution : Resolution;
  rating : Rating;
  sla : Sla;
  firstResponseAt : option Z;
  closedAt : option Z;
  reopenedCount : Z;
  lastReopenedAt : option Z;
  createdAt : option Z;
  updatedAt : option Z;
  isNew : bool
}.

Definition Status_eqb (a b : Status) : bool :=
  match a, b with
  | open, open | in_review, in_review | pending_customer, pending_customer
  | resolved, resolved | closed, closed => true
  | _, _ => false
  end.

(** [x.role === 'admin'] on a user path: an [ObjectId] has no [role]. *)
Definition role_is_admin (x : UserRef) : bool :=
  match x with
  | Id _ => false
  | User _ role => String.eqb role "admin"
  end.

(** Truthiness of an optional [Date]: a date is truthy, [undefined] is not. *)
Definition is_set (d : option Z) : bool :=
  match d with
  | Some _ => true
  | None => false
  end.

(** [Math.abs(t - new Date(this.createdAt)) / (1000 * 60 * 60)]; without a
    creation date the quotient is not a number of hours. *)
Definition hours_since (created : option Z) (t : Z) : option Q :=
  match created with
  | Some c => Some (elapsed_hours t c)
  | None => None
  end.

(** [{}] assigned to the nested paths [resolution] and [rating]. *)
Definition no_resolution : Resolution := mkResolution None None None.

Definition no_rating : Rating := mkRating None None None.

(** *** Assignments to the paths of a document *)

Definition set_ticketNumber (v : option string) (this : Document) : Document :=
  mkTicket (customerId this) v (ticketType this) (category this) (subject this)
    (description this) (priority this) (status this) (assignedTo this)
    (attachments this) (comments this) (resolution this) (rating this) (sla this)
    (firstResponseAt this) (closedAt this) (reopenedCount this)
    (lastReopenedAt this) (createdAt this) (updatedAt this) (isNew this).

Definition set_status (v : Status) (this : Document) : Document :=
  mkTicket (customerId this) (ticketNumber this) (ticketType this) (category this)
    (subject this) (description this) (priority this) v (assignedTo this)
    (attachments this) (comments this) (resolution this) (rating this) (sla this)
    (firstResponseAt this) (closedAt this) (reopenedCount this)
    (lastReopenedAt this) (createdAt this) (updatedAt this) (isNew this).

Definition set_assignedTo (v : option UserRef) (this : Document) : Document :=
  mkTicket (customerId this) (ticketNumber this) (ticketType this) (category this)
    (subject this) (description this) (priority this) (status this) v
    (attachments this) (comments this) (resolution this) (rating this) (sla this)
    (firstResponseAt this) (closedAt this) (reopenedCount this)
    (lastReopenedAt this) (createdAt this) (updatedAt this) (isNew this).

Definition set_comments (v : list Comment) (this : Document) : Document :=
  mkTicket (customerId this) (ticketNumber this) (ticketType this) (category this)
    (subject this) (description this) (priority this) (status this)
    (assignedTo this) (attachments this) v (resolution this) (rating this)
    (sla this) (firstResponseAt this) (closedAt this) (reopenedCount this)
    (lastReopenedAt this) (createdAt this) (updatedAt this) (isNew this).

Definition set_resolution (v : Resolution) (this : Document) : Document :=
  mkTicket (customerId this) (ticketNumber this) (ticketType this) (category this)
    (subject this) (description this) (priority this) (status this)
    (assignedTo this) (attachments this) (comments this) v (rating this)
    (sla this) (firstResponseAt this) (closedAt this) (reopenedCount this)
    (lastReopenedAt this) (createdAt this) (updatedAt this) (isNew this).

Definition set_rating (v : Rating) (this : Document) : Document :=
  mkTicket (customerId this) (ticketNumber this) (ticketType this) (category this)
    (subject this) (description this) (priority this) (status this)
    (assignedTo this) (attachments this) (comments this) (resolution this) v
    (sla this) (firstResponseAt this) (closedAt this) (reopenedCount this)
    (lastReopenedAt this) (createdAt this) (updatedAt this) (isNew this).

Definition set_sla (v : Sla) (this : Document) : Document :=
  mkTicket (customerId this) (ticketNumber this) (ticketType this) (category this)
    (subject this) (description this) (priority this) (status this)
    (assignedTo this) (attachments this) (comments this) (resolution this)
    (rating this) v (firstResponseAt this) (closedAt this) (reopenedCount this)
    (lastReopenedAt this) (createdAt this) (updatedAt this) (isNew this).

Definition set_firstResponseAt (v : option Z) (this : Document) : Document :=
  mkTicket (customerId this) (ticketNumber this) (ticketType this) (category this)
    (subject this) (description this) (priority this) (status this)
    (assignedTo this) (attachments this) (comments this) (resolution this)
    (rating this) (sla this) v (closedAt this) (reopenedCount this)
    (lastReopenedAt this) (createdAt this) (updatedAt this) (isNew this).

Definition set_closedAt (v : option Z) (this : Document) : Document :=
  mkTicket (customerId this) (ticketNumber this) (ticketType this) (category this)
    (subject this) (description this) (priority this) (status this)
    (assignedTo this) (attachments this) (comments this) (resolution this)
    (rating this) (sla this) (firstResponseAt this) v (reopenedCount this)
    (lastReopenedAt this) (createdAt this) (updatedAt this) (isNew this).

Definition set_reopenedCount (v : Z) (this : Document) : Document :=
  mkTicket (customerId this) (ticketNumber this) (ticketType this) (category this)
    (subject this) (description this) (priority this) (status this)
    (assignedTo this) (attachments this) (comments this) (resolution this)
    (rating this) (sla this) (firstResponseAt this) (closedAt this) v
    (lastReopenedAt this) (createdAt this) (updatedAt this) (isNew this).

Definition set_lastReopenedAt (v : option Z) (this : Document) : Document :=
  mkTicket (customerId this) (ticketNumber this) (ticketType this) (category this)
    (subject this) (description this) (priority this) (status this)
    (assignedTo this) (attachments this) (comments this) (resolution this)
    (rating this) (sla this) (firstResponseAt this) (closedAt this)
    (reopenedCount this) v (createdAt this) (updatedAt this) (isNew this).

(** Assignments to the paths under [resolution] and [sla]. *)
Definition set_resolvedAt (v : option Z) (this : Document) : Document :=
  let r := resolution this in
  set_resolution (mkResolution (resolution_text r) (resolvedBy r) v) this.

Definition set_responseTime (v : option Q) (this : Document) : Document :=
  let s := sla this in
  set_sla
    (mkSla v (resolutionTime s) (breached s) (responseDeadline s)
       (resolutionDeadline s)) this.

Definition set_resolutionTime (v : option Q) (this : Document) : Document :=
  let s := sla this in
  set_sla
    (mkSla (responseTime s) v (breached s) (responseDeadline s)
       (resolutionDeadline s)) this.

Definition set_breached (v : bool) (this : Document) : Document :=
  let s := sla this in
  set_sla
    (mkSla (responseTime s) (resolutionTime s) v (responseDeadline s)
       (resolutionDeadline s)) this.

Definition set_responseDeadline (v : option Z) (this : Document) : Document :=
  let s := sla this in
  set_sla
    (mkSla (responseTime s) (resolutionTime s) (breached s) v
       (resolutionDeadline s)) this.

Definition set_resolutionDeadline (v : option Z) (this : Document) : Document :=
  let s := sla this in
  set_sla
    (mkSla (responseTime s) (resolutionTime s) (breached s)
       (responseDeadline s) v) this.

(** What the store does around the hooks of one [save]: the timestamps
    option stamps the document before the hooks run, and a written document
    is no longer new. *)
Definition stamp (now : Z) (this : Document) : Document :=
  mkTicket (customerId this) (ticketNumber this) (ticketType this) (category this)
    (subject this) (description this) (priority this) (status this)
    (assignedTo this) (attachments this) (comments this) (resolution this)
    (rating this) (sla this) (firstResponseAt this) (closedAt this)
    (reopenedCount this) (lastReopenedAt this)
    (if isNew this then
       match createdAt this with Some c => Some c | None => Some now end
     else createdAt this)
    (Some now) (isNew this).

Definition written (this : Document) : Document :=
  mkTicket (customerId this) (ticketNumber this) (ticketType this) (category this)
    (subject this) (description this) (priority this) (status this)
    (assignedTo this) (attachments this) (comments this) (resolution this)
    (rating this) (sla this) (firstResponseAt this) (closedAt this)
    (reopenedCount this) (lastReopenedAt this) (createdAt this) (updatedAt this)
    false.

(** [new SupportRequest({...})]: the given paths and the defaults of the
    schema for the others. *)
Definition new_document (customerId_ : ObjectId) (ticketNumber_ : option string)
  (type_ : TicketType) (category_ : option string) (subject_ description_ : string)
  (priority_ : Priority) : Document :=
  mkTicket (Id customerId_) ticketNumber_ type_ category_ subject_ description_
    priority_ open None [] [] no_resolution no_rating
    (mkSla None None false None None) None None 0 None None None true.

(** [deadline && new Date() > deadline]. *)
Definition past (now : Z) (deadline : option Z) : bool :=
  match deadline with
  | Some d => (d <? now)%Z
  | None => false
  end.

(** *** The hook and the methods

    [now] is the reading of the clock and [count] the result of
    [countDocuments()] at this call. *)
Section Call.

Variable now : Clock.
Variable count : Z.

(** [supportRequestSchema.pre('save', ...)], block by block in the order of
    the hook. *)

(** Generate ticket number for new requests. *)
Definition generate_ticket_number (this : Document) : Document :=
  if isNew this && negb (truthy (ticketNumber this))
  then
    let year := getFullYear now in
    let month := padStart (toString (getMonth now + 1)) 2 "0" in
    let sequential := padStart (toString (count + 1)) 5 "0" in
    set_ticketNumber (Some ("TKT" ++ toString year ++ month ++ sequential)) this
  else this.

(** Set SLA deadlines based on priority. *)
Definition set_sla_deadlines (this : Document) : Document :=
  if isNew this
  then
    let '(responseHours, resolutionHours) :=
      match priority this with
      | urgent => (2, 24)
      | high => (4, 48)
      | medium => (24, 72)
      | low => (48, 120)
      end in
    let this :=
      set_responseDeadline
        (Some (getTime now + responseHours * 60 * 60 * 1000)) this in
    set_resolutionDeadline
      (Some (getTime now + resolutionHours * 60 * 60 * 1000)) this
  else this.

(** The predicate of [this.comments.filter(...)]. *)
Definition counts_as_response (c : Comment) : bool :=
  negb (isInternal c) || role_is_admin (author c).

(** Track first response time. *)
Definition track_first_response (this : Document) : Document :=
  if (0 <? Z.of_nat (List.length (comments this)))%Z
     && negb (is_set (firstResponseAt this))
  then
    let adminComments := filter counts_as_response (comments this) in
    match adminComments with
    | first :: _ =>
        let this := set_firstResponseAt (Some (comment_createdAt first)) this in
        set_responseTime
          (hours_since (createdAt this) (comment_createdAt first)) this
    | [] => this
    end
  else this.

(** Track resolution time. *)
Definition track_resolution (this : Document) : Document :=
  if Status_eqb (status this) resolved
     && negb (is_set (resolvedAt (resolution this)))
  then
    let this := set_resolvedAt (Some (getTime now)) this in
    set_resolutionTime (hours_since (createdAt this) (getTime now)) this
  else this.

(** Track closure. *)
Definition track_closure (this : Document) : Document :=
  if Status_eqb (status this) closed && negb (is_set (closedAt this))
  then set_closedAt (Some (getTime now)) this
  else this.

(** Check SLA breach. *)
Definition check_sla_breach (this : Document) : Document :=
  let this :=
    if past (getTime now) (responseDeadline (sla this))
       && negb (is_set (firstResponseAt this))
    then set_breached true this
    else this in
  if past (getTime now) (resolutionDeadline (sla this))
     && negb (Status_eqb (status this) resolved)
     && negb (Status_eqb (status this) closed)
  then set_breached true this
  else this.

Definition pre_save (this : Document) : Document :=
  let this := generate_ticket_number this in
  let this := set_sla_deadlines this in
  let this := track_first_response this in
  let this := track_resolution this in
  let this := track_closure this in
  check_sla_breach this.

(** [this.save()]. *)
Definition save (this : Document) : completion * Document :=
  (Fulfilled, written (pre_save (stamp (getTime now) this))).

(** [supportRequestSchema.methods.addComment]; the pushed comment takes the
    default [Date.now] for its [createdAt]. *)
Definition addComment (text_ : string) (authorId : UserRef) (isInternal_ : bool)
  (attachments_ : list CommentAttachment) (this : Document)
  : completion * Document :=
  let this :=
    set_comments
      (comments this
         ++ [mkComment text_ authorId isInternal_ attachments_ (getTime now)])
      this in
  save this.

(** [supportRequestSchema.methods.assignToAgent]. *)
Definition assignToAgent (agentId : UserRef) (this : Document)
  : completion * Document :=
  let this := set_assignedTo (Some agentId) this in
  let this := set_status in_review this in
  save this.

(** [supportRequestSchema.methods.resolve]. *)
Definition resolve (resolutionText : string) (resolvedById : UserRef)
  (this : Document) : completion * Document :=
  let this := set_status resolved this in
  let this :=
    set_resolution
      (mkResolution (Some resolutionText) (Some resolvedById)
         (Some (getTime now))) this in
  save this.

(** [supportRequestSchema.methods.reopen]; [if (reason)] tests that the
    reason is not the empty string. *)
Definition reopen (reason : string) (this : Document) : completion * Document :=
  let this :=
    if Status_eqb (status this) closed || Status_eqb (status this) resolved
    then
      let this := set_status open this in
      let this := set_reopenedCount (reopenedCount this + 1) this in
      let this := set_lastReopenedAt (Some (getTime now)) this in
      let this := set_resolution no_resolution this in
      if truthy (Some reason)
      then
        set_comments
          (comments this
             ++ [mkComment ("Ticket reopened: " ++ reason) (customerId this)
                   false [] (getTime now)])
          this
      else this
    else this in
  save this.

(** [supportRequestSchema.methods.addRating]. *)
Definition addRating (score_ : Z) (feedback_ : option string) (this : Document)
  : completion * Document :=
  if negb (Status_eqb (status this) resolved)
     && negb (Status_eqb (status this) closed)
  then (Threw "Can only rate resolved or closed tickets", this)
  else
    let this := set_rating (mkRating (Some score_) feedback_ (Some (getTime now))) this in
    save this.

End Call.

(** *** Sequences of calls *)

Inductive Call :=
| CallSave
| CallAddComment (text_ : string) (authorId : UserRef) (isInternal_ : bool)
    (attachments_ : list CommentAttachment)
| CallAssignToAgent (agentId : UserRef)
| CallResolve (resolutionText : string) (resolvedById : UserRef)
| CallReopen (reason : string)
| CallAddRating (score_ : Z) (feedback_ : option string).

Definition call (now : Clock) (count : Z) (c : Call) (this : Document)
  : completion * Document :=
  match c with
  | CallSave => save now count this
  | CallAddComment t a i l => addComment now count t a i l this
  | CallAssignToAgent a => assignToAgent now count a this
  | CallResolve t a => resolve now count t a this
  | CallReopen r => reopen now count r this
  | CallAddRating s f => addRating now count s f this
  end.

(** A history: each call with the clock reading and the document count it
    sees. *)
Fixpoint calls (h : list (Clock * Z * Call)) (this : Document) : Document :=
  match h with
  | [] => this
  | (now, count, c) :: h' => calls h' (snd (call now count c this))
  end.

(** *** Virtuals

    A virtual reads the clock when it is read; [now] is that reading. *)

(** Virtual for age of ticket; without creation date the age is not a
    number. *)
Definition ageInDays (now : Z) (this : Document) : option Z :=
  match createdAt this with
  | None => None
  | Some created =>
      let diffTime := Z.abs (now - created) in
      let diffDays := ceil_quotient diffTime ms_per_day in
      Some diffDays
  end.

(** Virtual for response time status. *)
Definition isResponseOverdue (now : Z) (this : Document) : bool :=
  if is_set (firstResponseAt this) || Status_eqb (status this) closed
  then false
  else if negb (is_set (responseDeadline (sla this)))
  then false
  else past now (responseDeadline (sla this)).

(** Virtual for resolution time status. *)
Definition isResolutionOverdue (now : Z) (this : Document) : bool :=
  if Status_eqb (status this) resolved || Status_eqb (status this) closed
  then false
  else if negb (is_set (resolutionDeadline (sla this)))
  then false
  else past now (resolutionDeadline (sla this)).

(** *** Statistics

    [supportRequestSchema.statics.getStatistics]: three [$group] stages over
    the documents of the collection that match the filter.  The groups come
    in the order of the enumeration of the key, which the store leaves
    open. *)

Definition Priority_eqb (a b : Priority) : bool :=
  match a, b with
  | low, low | medium, medium | high, high | urgent, urgent => true
  | _, _ => false
  end.

Definition TicketType_eqb (a b : TicketType) : bool :=
  match a, b with
  | feedback, feedback | grievance, grievance | suggestion, suggestion
  | technical, technical | billing, billing => true
  | _, _ => false
  end.

(** The values of a path over the documents that have it. *)
Definition values (A : Type) (path : Document -> option A)
  (docs : list Document) : list A :=
  flat_map (fun d => match path d with Some x => [x] | None => [] end) docs.

(** [$avg]: the mean of the values, [null] when there is none. *)
Definition avg (l : list Q) : option Q :=
  match l with
  | [] => None
  | _ =>
      Some (Qdiv (fold_right Qplus (inject_Z 0) l)
              (inject_Z (Z.of_nat (List.length l))))
  end.

(** [$sum: { $cond: ['$sla.breached', 1, 0] }]. *)
Definition sum_breached (docs : list Document) : Z :=
  fold_right (fun d acc => (if breached (sla d) then 1 else 0) + acc) 0 docs.

Record StatusGroup := mkStatusGroup {
  status_id : Status;
  status_count : Z;
  avgResponseTime : option Q;
  avgResolutionTime : option Q;
  avgRating : option Q;
  breachedCount : Z
}.

Record PriorityGroup := mkPriorityGroup {
  priority_id : Priority;
  priority_count : Z
}.

Record TypeGroup := mkTypeGroup {
  type_id : TicketType;
  type_count : Z
}.

Record Statistics := mkStatistics {
  byStatus : list StatusGroup;
  byPriority : list PriorityGroup;
  byType : list TypeGroup
}.

Definition group_by_status (docs : list Document) : list StatusGroup :=
  flat_map
    (fun s =>
       match filter (fun d => Status_eqb (status d) s) docs with
       | [] => []
       | g =>
           [mkStatusGroup s (Z.of_nat (List.length g))
              (avg (values Q (fun d => responseTime (sla d)) g))
              (avg (values Q (fun d => resolutionTime (sla d)) g))
              (avg (map inject_Z (values Z (fun d => score (rating d)) g)))
              (sum_breached g)]
       end)
    [open; in_review; pending_customer; resolved; closed].

Definition group_by_priority (docs : list Document) : list PriorityGroup :=
  flat_map
    (fun p =>
       match filter (fun d => Priority_eqb (priority d) p) docs with
       | [] => []
       | g => [mkPriorityGroup p (Z.of_nat (List.length g))]
       end)
    [low; medium; high; urgent].

Definition group_by_type (docs : list Document) : list TypeGroup :=
  flat_map
    (fun k =>
       match filter (fun d => TicketType_eqb (ticketType d) k) docs with
       | [] => []
       | g => [mkTypeGroup k (Z.of_nat (List.length g))]
       end)
    [feedback; grievance; suggestion; technical; billing].

Definition getStatistics (filter_ : Document -> bool)
  (collection : list Document) : Statistics :=
  let matched := filter filter_ collection in
  mkStatistics (group_by_status matched) (group_by_priority matched)
    (group_by_type matched).

End SupportRequest.

(** ** The request layer

    The handlers of the routes that call the methods of the two models.  A
    handler is run on an authenticated request: [user] is the [req.user] that
    [authenticateToken] loaded, with [req.userId] its [_id].  The body is
    taken as the validators of the route leave it.  A document looked up by
    id is given as the result of the lookup, [None] when there is none; the
    handler answers with a [Response] and the document as the store holds it
    afterwards. *)

Module Auth.

Inductive StatusType :=
| just_enquired
| paid_initial
| full_payment_pending
| full_payment_moved_in
| emi_customer.

Record User := mkUser {
  userId : ObjectId;
  role : string;
  statusType : StatusType
}.

(** The status code of a response and the [error] and [message] of its
    JSON. *)
Record Response := mkResponse {
  statusCode : Z;
  error : option string;
  message : option string
}.

(** [roles.join(' or ')]. *)
Definition join_roles (roles : list string) : string :=
  String.concat " or " roles.

(** [authorizeRoles(...roles)]: [None] is [next()]. *)
Definition authorizeRoles (roles : list string) (user : option User)
  : option Response :=
  match user with
  | None =>
      Some (mkResponse 401 (Some "Authentication required")
              (Some "Please login first"))
  | Some u =>
      if negb (existsb (String.eqb (role u)) roles)
      then
        Some (mkResponse 403 (Some "Access denied")
                (Some ("This resource requires " ++ join_roles roles ++ " role")))
      else None
  end.

End Auth.

(** *** Routes of the support requests *)

Module SupportRoutes.

Import Auth.
Import SupportRequest.


Record UpdateBody := mkUpdateBody {
  update_status : option Status;
  update_priority : option Priority;
  update_assignedTo : option ObjectId
}.


(** [ticket.customerId.toString() === req.userId.toString()] on a ticket
    loaded without populating its customer. *)
Definition isOwner (ticket : Document) (user : Auth.User) : bool :=
  match customerId ticket with
  | Id id => (id =? userId user)%Z
  | User _ _ => false
  end.

Definition isAdmin (user : Auth.User) : bool := String.eqb (role user) "admin".


Section Request.

Variable now : Clock.


(** GET /api/support/requests/:id.  [found] is the ticket with its
    references populated; the second component is the [data] of the answer,
    [None] when the answer carries none.  Nothing is saved. *)
Definition get_request (user : Auth.User) (found : option Document)
  : Response * option Document :=
  match found with
  | None => (mkResponse 404 (Some "Support request not found") None, None)
  | Some ticket =>
      let isOwner_ :=
        match customerId ticket with
        | Id id => (id =? userId user)%Z
        | User id _ => (id =? userId user)%Z
        end in
      if negb isOwner_ && negb (isAdmin user)
      then (mkResponse 403 (Some "Access denied") None, None)
      else
        let ticket :=
          if String.eqb (role user) "customer"
          then
            set_comments (filter (fun c => negb (isInternal c)) (comments ticket))
              ticket
          else ticket in
        (mkResponse 200 None None, Some ticket)
  end.

Variable count : Z.

(** [findByIdAndUpdate(id, { $set: updates })] of the store, which runs no
    hook of the schema. *)
Variable findByIdAndUpdate : UpdateBody -> Document -> Document.

(** PUT /api/support/requests/:id. *)
Definition put_request (user : Auth.User) (body : UpdateBody)
  (found : option Document) : Response * option Document :=
  match found with
  | None => (mkResponse 404 (Some "Support request not found") None, None)
  | Some ticket =>
      if negb (isOwner ticket user) && negb (isAdmin user)
      then (mkResponse 403 (Some "Access denied") None, Some ticket)
      else if isAdmin user
      then
        (mkResponse 200 None (Some "Support request updated successfully"),
         Some (findByIdAndUpdate body ticket))
      else if match update_status body with
              | Some open => true
              | _ => false
              end
              && (Status_eqb (status ticket) resolved
                  || Status_eqb (status ticket) closed)
      then
        (mkResponse 200 None (Some "Ticket reopened successfully"),
         Some (snd (reopen now count "Customer reopened the ticket" ticket)))
      else
        (mkResponse 403 (Some "Limited update access")
           (Some "Customers can only reopen resolved/closed tickets"),
         Some ticket)
  end.


(** PUT /api/support/requests/:id/resolve, behind [authorizeRoles('admin')]. *)
Definition put_resolve (user : Auth.User) (resolutionText : string)
  (found : option Document) : Response * option Document :=
  match authorizeRoles ["admin"] (Some user) with
  | Some denied => (denied, found)
  | None =>
      match found with
      | None => (mkResponse 404 (Some "Support request not found") None, None)
      | Some ticket =>
          (mkResponse 200 None (Some "Ticket resolved successfully"),
           Some (snd (resolve now count resolutionText (Id (userId user))
                        ticket)))
      end
  end.

(** POST /api/support/requests/:id/rating. *)
Definition post_rating (user : Auth.User) (score_ : Z) (feedback_ : option string)
  (found : option Document) : Response * option Document :=
  match found with
  | None => (mkResponse 404 (Some "Support request not found") None, None)
  | Some ticket =>
      if negb (isOwner ticket user)
      then
        (mkResponse 403 (Some "Access denied")
           (Some "Only ticket owner can rate the support"), Some ticket)
      else
        match addRating now count score_ feedback_ ticket with
        | (Threw reason, ticket') =>
            (mkResponse 500 (Some "Failed to add rating")
               (if truthy (Some reason) then Some reason
                else Some "Unable to rate support request"), Some ticket')
        | (Fulfilled, ticket') =>
            (mkResponse 200 None (Some "Rating added successfully"),
             Some ticket')
        end
  end.

(** PUT /api/support/requests/:id/assign, behind [authorizeRoles('admin')]. *)
Definition put_assign (user : Auth.User) (agentId : ObjectId)
  (found : option Document) : Response * option Document :=
  match authorizeRoles ["admin"] (Some user) with
  | Some denied => (denied, found)
  | None =>
      match found with
      | None => (mkResponse 404 (Some "Support request not found") None, None)
      | Some ticket =>
          (mkResponse 200 None (Some "Ticket assigned successfully"),
           Some (snd (assignToAgent now count (Id agentId) ticket)))
      end
  end.

End Request.

End SupportRoutes.

(** *** Routes of the payments *)

Module PaymentRoutes.

Import Auth.
Import Payment.



Section Request.

Variable date : Clock.
Variable random : Z.


(** POST /api/payments/:id/refund, behind [authorizeRoles('admin')]. *)
Definition post_refund (user : User) (amount_ : Z) (reason : string)
  (found : option Document) : Response * option Document :=
  match authorizeRoles ["admin"] (Some user) with
  | Some denied => (denied, found)
  | None =>
      match found with
      | None => (mkResponse 404 (Some "Payment not found") None, None)
      | Some payment =>
          match initiateRefund date random amount_ reason payment with
          | (Threw reason_, payment') =>
              (mkResponse 500 (Some "Failed to initiate refund")
                 (if truthy (Some reason_) then Some reason_
                  else Some "Unable to process refund"), Some payment')
          | (Fulfilled, payment') =>
              (mkResponse 200 None (Some "Refund initiated successfully"),
               Some payment')
          end
      end
  end.

End Request.

End PaymentRoutes.

(** ** Sample documents

    Concrete documents and clock readings on which the statements below are
    evaluated. *)

Module Samples.

(** 14 November 2023, 22:13:20 UTC, and two hours later. *)
Definition t0 : Clock := mkClock 1700000000000 2023 10.

Definition t2h : Clock := mkClock 1700007200000 2023 10.

(** A stored payment of 100000 in the given status, without receipt. *)
Definition payment (s : Payment.Status) : Payment.Document :=
  Payment.mkPayment 11 21 100000 "INR" Payment.booking Payment.card
    (Payment.mkGateway (Some "razorpay") (Some "order_1700000000000") None None
       None)
    s None (Payment.mkInvoice None None None)
    (Payment.mkMetadata None None None None None None None)
    (Payment.mkRefund None None None None None) None None 0 None
    (Some 1700000000000) (Some 1700000000000) false false.

(** A stored ticket of customer 11, created at [t0] with priority high, in
    the given status and with the given resolution record. *)
Definition ticket (s : SupportRequest.Status) (r : SupportRequest.Resolution)
  : SupportRequest.Document :=
  SupportRequest.mkTicket (SupportRequest.Id 11) (Some "temp")
    SupportRequest.technical None "Unable to view project images"
    "The images are not loading on the project page." SupportRequest.high s None
    [] [] r SupportRequest.no_rating
    (SupportRequest.mkSla None None false (Some 1700014400000)
       (Some 1700172800000))
    None None 0 None (Some 1700000000000) (Some 1700000000000) false.

(** The resolution record left by the admin 7 at [t0]. *)
Definition resolved_by_admin : SupportRequest.Resolution :=
  SupportRequest.mkResolution (Some "Cache cleared") (Some (SupportRequest.Id 7))
    (Some 1700000000000).

End Samples.

(** ** Properties of the payment lifecycle *)

Module PaymentLifecycle.

Import Payment.

Lemma payment_Status_eqb_eq (a b : Status) : Status_eqb a b = true <-> a = b.
Proof. destruct a, b; simpl; split; congruence. Qed.

Lemma payment_Status_eqb_neq (a b : Status) : Status_eqb a b = false <-> a <> b.
Proof. destruct a, b; simpl; split; congruence. Qed.

(** The hook never assigns [status]. *)
Lemma payment_status_pre_save date random p : status (pre_save date random p) = status p.
Proof.
  unfold pre_save, update_attempts_count, generate_receipt_number.
  destruct (Status_eqb (status p) success && negb (truthy (receiptNumber p)));
    cbn [status set_paidAt set_receiptNumber];
    match goal with |- context [if ?b then _ else _] => destruct b end;
    reflexivity.
Qed.

Lemma payment_status_save date random p : status (snd (save date random p)) = status p.
Proof. unfold save. cbn [snd written status]. rewrite payment_status_pre_save. reflexivity. Qed.

(** *** Refunds *)

(** C6.  [initiateRefund(amount, reason)] throws, leaving the payment as it
    was, when the status is not success and when the amount exceeds the
    amount of the payment; otherwise the save is fulfilled and the refund
    record holds the amount, the reason, the date and the status
    initiated. *)
Theorem initiateRefund_guards date random amount_ reason p :
  (status p <> success ->
   initiateRefund date random amount_ reason p
   = (Threw "Can only refund successful payments", p))
  /\ (status p = success -> amount p < amount_ ->
      initiateRefund date random amount_ reason p
      = (Threw "Refund amount cannot exceed payment amount", p))
  /\ (status p = success -> amount_ <= amount p ->
      fst (initiateRefund date random amount_ reason p) = Fulfilled
      /\ refundDetails (snd (initiateRefund date random amount_ reason p))
         = mkRefund (Some amount_) (Some reason) (Some (getTime date)) None
             (Some initiated)).
Proof.
  unfold initiateRefund. split; [| split].
  - intros Hs. apply payment_Status_eqb_neq in Hs. rewrite Hs. reflexivity.
  - intros Hs Hlt. apply payment_Status_eqb_eq in Hs. rewrite Hs. cbn [negb].
    apply Z.ltb_lt in Hlt. rewrite Hlt. reflexivity.
  - intros Hs Hle. apply payment_Status_eqb_eq in Hs. rewrite Hs. cbn [negb].
    apply Z.ltb_ge in Hle. rewrite Hle. split; [reflexivity |].
    unfold save, pre_save, update_attempts_count, generate_receipt_number.
    cbn [snd].
    repeat match goal with
    | |- context [if ?b then _ else _] => destruct b
    end; reflexivity.
Qed.

Lemma initiateRefund_guards_witness :
  initiateRefund Samples.t0 4821 50000 "Booking cancelled"
    (Samples.payment pending)
  = (Threw "Can only refund successful payments", Samples.payment pending)
  /\ initiateRefund Samples.t0 4821 150000 "Booking cancelled"
       (Samples.payment success)
     = (Threw "Refund amount cannot exceed payment amount",
        Samples.payment success)
  /\ (fst (initiateRefund Samples.t0 4821 50000 "Booking cancelled"
             (Samples.payment success)) = Fulfilled
      /\ refundDetails
           (snd (initiateRefund Samples.t0 4821 50000 "Booking cancelled"
                   (Samples.payment success)))
         = mkRefund (Some 50000) (Some "Booking cancelled")
             (Some 1700000000000) None (Some initiated)).
Proof.
  split; [| split].
  - apply (proj1 (initiateRefund_guards Samples.t0 4821 50000
                    "Booking cancelled" (Samples.payment pending))).
    simpl. discriminate.
  - apply (proj1 (proj2 (initiateRefund_guards Samples.t0 4821 150000
                           "Booking cancelled" (Samples.payment success)))).
    + reflexivity.
    + simpl. lia.
  - apply (proj2 (proj2 (initiateRefund_guards Samples.t0 4821 50000
                           "Booking cancelled" (Samples.payment success)))).
    + reflexivity.
    + simpl. lia.
Defined.

(** *** Status transitions *)

(** [initiateRefund] never assigns [status], whether it throws or saves. *)
Lemma status_initiateRefund date random amount_ reason p :
  status (snd (initiateRefund date random amount_ reason p)) = status p.
Proof.
  unfold initiateRefund.
  destruct (negb (Status_eqb (status p) success)); [reflexivity |].
  destruct (amount p <? amount_)%Z; [reflexivity |].
  rewrite payment_status_save. reflexivity.
Qed.

(** [updateStatus] assigns its argument to [status], whatever the status
    was. *)
Lemma status_updateStatus date random status_ details p :
  status (snd (updateStatus date random status_ details p)) = status_.
Proof.
  unfold updateStatus. rewrite payment_status_save.
  destruct status_; cbn [status set_status set_attempts set_failureReason];
    try reflexivity.
  repeat match goal with
  | |- context [if ?b then _ else _] => destruct b
  end; reflexivity.
Qed.

(** C2, as the code has it.  On a payment whose status is success or
    refunded, [initiateRefund] leaves the status as it is (it does not move
    success to refunded), and [updateStatus(s, details)] sets the status to
    [s] for every [s]: no status is protected against [updateStatus]. *)
Theorem terminal_status_calls date random p :
  status p = success \/ status p = refunded ->
  (forall amount_ reason,
      status (snd (initiateRefund date random amount_ reason p)) = status p)
  /\ (forall status_ details,
       status (snd (updateStatus date random status_ details p)) = status_).
Proof.
  intros _. split; intros.
  - apply status_initiateRefund.
  - apply status_updateStatus.
Qed.

Lemma terminal_status_calls_witness :
  (forall amount_ reason,
      status (snd (initiateRefund Samples.t0 4821 amount_ reason
                     (Samples.payment success)))
      = status (Samples.payment success))
  /\ (forall status_ details,
       status (snd (updateStatus Samples.t0 4821 status_ details
                      (Samples.payment success))) = status_).
Proof.
  apply (terminal_status_calls Samples.t0 4821 (Samples.payment success)).
  left. reflexivity.
Defined.

(** C2, as stated, fails: [updateStatus('pending')] moves a successful
    payment to pending, which is neither its status nor the transition from
    success to refunded. *)
Lemma updateStatus_leaves_success :
  status (Samples.payment success) = success
  /\ status (snd (updateStatus Samples.t0 4821 pending no_details
                    (Samples.payment success))) = pending
  /\ ~ (status (snd (updateStatus Samples.t0 4821 pending no_details
                       (Samples.payment success)))
        = status (Samples.payment success)
        \/ status (snd (updateStatus Samples.t0 4821 pending no_details
                          (Samples.payment success))) = refunded).
Proof.
  split; [reflexivity | split; [reflexivity |]].
  intros [H | H]; vm_compute in H; discriminate H.
Qed.

(** *** Failed attempts *)

(** C3, on the code.  On a stored payment whose status is not failed,
    [updateStatus('failed', details)] sets the status and the failure reason,
    and adds two to [attempts]: one in the method, and one more in the hook,
    which sees [status] modified and equal to failed. *)
Theorem updateStatus_failed_counts_twice date random details p :
  isNew p = false -> statusModified p = false -> status p <> failed ->
  status (snd (updateStatus date random failed details p)) = failed
  /\ failureReason (snd (updateStatus date random failed details p))
     = (if truthy (details_reason details) then details_reason details
        else Some "Payment failed")
  /\ attempts (snd (updateStatus date random failed details p))
     = attempts p + 2.
Proof.
  intros Hnew Hmod Hs.
  destruct p as [? ? ? ? ? ? ? st ? ? ? ? ? ? ? ? ? ? new modified].
  cbn in Hnew, Hmod, Hs. subst new modified.
  destruct st; try congruence; cbn; repeat split; lia.
Qed.

Lemma updateStatus_failed_counts_twice_witness :
  status (snd (updateStatus Samples.t0 4821 failed
                 (mkDetails None None (Some "Card declined"))
                 (Samples.payment pending))) = failed
  /\ failureReason (snd (updateStatus Samples.t0 4821 failed
                           (mkDetails None None (Some "Card declined"))
                           (Samples.payment pending)))
     = Some "Card declined"
  /\ attempts (snd (updateStatus Samples.t0 4821 failed
                      (mkDetails None None (Some "Card declined"))
                      (Samples.payment pending))) = 0 + 2.
Proof.
  apply (updateStatus_failed_counts_twice Samples.t0 4821
           (mkDetails None None (Some "Card declined"))
           (Samples.payment pending)).
  - reflexivity.
  - reflexivity.
  - simpl. discriminate.
Defined.

(** When the status already is failed on a stored payment, the hook sees no
    modification and the counter grows by one. *)
Lemma updateStatus_failed_again date random details p :
  isNew p = false -> statusModified p = false -> status p = failed ->
  attempts (snd (updateStatus date random failed details p)) = attempts p + 1.
Proof.
  intros Hnew Hmod Hs.
  destruct p as [? ? ? ? ? ? ? st ? ? ? ? ? ? ? ? ? ? new modified].
  cbn in Hnew, Hmod, Hs. subst new modified st. reflexivity.
Qed.

(** *** Receipt numbers *)

Lemma receiptNumber_update_attempts_count p :
  receiptNumber (update_attempts_count p) = receiptNumber p.
Proof.
  unfold update_attempts_count.
  destruct (statusModified p && Status_eqb (status p) failed); reflexivity.
Qed.

(** The hook on a document that has no receipt number yet. *)
Lemma receiptNumber_generate date random p :
  truthy (receiptNumber p) = false ->
  receiptNumber (generate_receipt_number date random p)
  = if Status_eqb (status p) success
    then Some ("REC" ++ toString (getFullYear date)
                 ++ padStart (toString (getMonth date + 1)) 2 "0"
                 ++ padStart (toString random) 4 "0")
    else receiptNumber p.
Proof.
  intros Hr. unfold generate_receipt_number. rewrite Hr.
  destruct (Status_eqb (status p) success); reflexivity.
Qed.

(** The hook on a document that has one. *)
Lemma receiptNumber_generate_kept date random p :
  truthy (receiptNumber p) = true ->
  receiptNumber (generate_receipt_number date random p) = receiptNumber p.
Proof.
  intros Hr. unfold generate_receipt_number. rewrite Hr.
  rewrite andb_false_r. reflexivity.
Qed.

Lemma receiptNumber_save_kept date random p :
  truthy (receiptNumber p) = true ->
  receiptNumber (snd (save date random p)) = receiptNumber p.
Proof.
  intros Hr. unfold save, pre_save. cbn [snd written receiptNumber].
  rewrite receiptNumber_update_attempts_count.
  rewrite receiptNumber_generate_kept; [reflexivity | exact Hr].
Qed.

(** No method assigns [receiptNumber]: a call keeps a receipt number that is
    set. *)
Lemma receiptNumber_call_kept date random c p :
  truthy (receiptNumber p) = true ->
  receiptNumber (snd (call date random c p)) = receiptNumber p.
Proof.
  intros Hr. destruct c as [| v | amount_ reason | status_ details];
    cbn [call].
  - apply receiptNumber_save_kept, Hr.
  - rewrite receiptNumber_save_kept; [reflexivity | exact Hr].
  - unfold initiateRefund.
    destruct (negb (Status_eqb (status p) success)); [reflexivity |].
    destruct (amount p <? amount_)%Z; [reflexivity |].
    rewrite receiptNumber_save_kept; [reflexivity | exact Hr].
  - unfold updateStatus. rewrite receiptNumber_save_kept.
    + destruct status_; try reflexivity.
      repeat match goal with
      | |- context [if ?b then _ else _] => destruct b
      end; reflexivity.
    + destruct status_; try exact Hr.
      repeat match goal with
      | |- context [if ?b then _ else _] => destruct b
      end; exact Hr.
Qed.

Lemma receiptNumber_calls_kept h : forall p,
  truthy (receiptNumber p) = true ->
  receiptNumber (calls h p) = receiptNumber p.
Proof.
  induction h as [| [[date random] c] h IH]; intros p Hr; cbn [calls].
  - reflexivity.
  - rewrite IH; rewrite receiptNumber_call_kept; auto.
Qed.

(** The widths of the padded parts of a receipt number, checked on every
    value of the range. *)
Lemma random_suffix_length random :
  0 <= random < 10000 ->
  String.length (padStart (toString random) 4 "0") = 4%nat.
Proof.
  intros Hr.
  assert (Hall : forallb
            (fun n => Nat.eqb
               (String.length (padStart (toString (Z.of_nat n)) 4 "0")) 4)
            (seq 0 (Z.to_nat 10000)) = true) by (vm_compute; reflexivity).
  rewrite forallb_forall in Hall.
  specialize (Hall (Z.to_nat random)).
  rewrite Z2Nat.id in Hall by lia.
  apply Nat.eqb_eq, Hall, in_seq. lia.
Qed.

Lemma month_part_length month :
  0 <= month < 12 ->
  String.length (padStart (toString (month + 1)) 2 "0") = 2%nat.
Proof.
  intros Hm.
  assert (Hall : forallb
            (fun n => Nat.eqb
               (String.length (padStart (toString (Z.of_nat n + 1)) 2 "0")) 2)
            (seq 0 12) = true) by (vm_compute; reflexivity).
  rewrite forallb_forall in Hall.
  specialize (Hall (Z.to_nat month)).
  rewrite Z2Nat.id in Hall by lia.
  apply Nat.eqb_eq, Hall, in_seq. lia.
Qed.

(** C8.  On a payment without receipt number, a save in which the status is
    not success leaves it without one; the save in which the status is
    success assigns REC, the year, the month on two characters and a suffix
    of four characters; and after that save every history of calls, each of
    which saves the payment, leaves the receipt number as it is. *)
Theorem receiptNumber_generated_once date random p :
  receiptNumber p = None ->
  (status p <> success -> receiptNumber (snd (save date random p)) = None)
  /\ (status p = success ->
      receiptNumber (snd (save date random p))
      = Some ("REC" ++ toString (getFullYear date)
                ++ padStart (toString (getMonth date + 1)) 2 "0"
                ++ padStart (toString random) 4 "0")
      /\ (0 <= getMonth date < 12 ->
          String.length (padStart (toString (getMonth date + 1)) 2 "0") = 2%nat)
      /\ (0 <= random < 10000 ->
          String.length (padStart (toString random) 4 "0") = 4%nat)
      /\ forall h,
          receiptNumber (calls h (snd (save date random p)))
          = receiptNumber (snd (save date random p))).
Proof.
  intros Hnone.
  assert (Hsave : receiptNumber (snd (save date random p))
                  = if Status_eqb (status p) success
                    then Some ("REC" ++ toString (getFullYear date)
                                 ++ padStart (toString (getMonth date + 1)) 2 "0"
                                 ++ padStart (toString random) 4 "0")
                    else None).
  { unfold save, pre_save. cbn [snd written receiptNumber].
    rewrite receiptNumber_update_attempts_count, receiptNumber_generate.
    - cbn [status stamp receiptNumber]. rewrite Hnone. reflexivity.
    - cbn [stamp receiptNumber]. rewrite Hnone. reflexivity. }
  split.
  - intros Hs. apply payment_Status_eqb_neq in Hs. rewrite Hsave, Hs. reflexivity.
  - intros Hs. apply payment_Status_eqb_eq in Hs. rewrite Hs in Hsave.
    split; [exact Hsave |].
    split; [apply month_part_length |].
    split; [apply random_suffix_length |].
    intros h. apply receiptNumber_calls_kept. rewrite Hsave. reflexivity.
Qed.

Lemma receiptNumber_generated_once_witness :
  receiptNumber (snd (save Samples.t0 4821 (Samples.payment success)))
  = Some "REC2023114821"
  /\ receiptNumber
       (calls [(Samples.t2h, 77, CallInitiateRefund 50000 "Booking cancelled");
               (Samples.t2h, 78, CallUpdateStatus refunded no_details);
               (Samples.t2h, 79, CallUpdateStatus success no_details)]
          (snd (save Samples.t0 4821 (Samples.payment success))))
     = Some "REC2023114821"
  /\ receiptNumber (snd (save Samples.t0 4821 (Samples.payment pending)))
     = None.
Proof.
  pose proof (receiptNumber_generated_once Samples.t0 4821
                (Samples.payment success) eq_refl) as [_ Hs].
  pose proof (receiptNumber_generated_once Samples.t0 4821
                (Samples.payment pending) eq_refl) as [Hp _].
  destruct (Hs eq_refl) as (Hgen & _ & _ & Hkept).
  split; [exact Hgen | split].
  - rewrite Hkept. exact Hgen.
  - apply Hp. simpl. discriminate.
Defined.

End PaymentLifecycle.

(** ** Properties of the ticket lifecycle *)

Module TicketLifecycle.

Import SupportRequest.

Lemma ticket_Status_eqb_eq (a b : Status) : Status_eqb a b = true <-> a = b.
Proof. destruct a, b; simpl; split; congruence. Qed.

Lemma ticket_Status_eqb_neq (a b : Status) : Status_eqb a b = false <-> a <> b.
Proof. destruct a, b; simpl; split; congruence. Qed.

(** *** What the blocks of the hook leave alone

    Each block of the hook assigns one or two paths.  A reading [f] of the
    document that those assignments do not change is not changed by the
    block. *)
Section Frames.

Variable now : Clock.
Variable count : Z.
Variable A : Type.
Variable f : Document -> A.

Lemma frame_generate_ticket_number :
  (forall v t, f (set_ticketNumber v t) = f t) ->
  forall t, f (generate_ticket_number now count t) = f t.
Proof.
  intros H t. unfold generate_ticket_number.
  destruct (isNew t && negb (truthy (ticketNumber t))); [apply H | reflexivity].
Qed.

Lemma frame_set_sla_deadlines :
  (forall v t, f (set_responseDeadline v t) = f t) ->
  (forall v t, f (set_resolutionDeadline v t) = f t) ->
  forall t, f (set_sla_deadlines now t) = f t.
Proof.
  intros H1 H2 t. unfold set_sla_deadlines.
  destruct (isNew t); [| reflexivity].
  destruct (priority t); cbv zeta beta iota; rewrite H2, H1; reflexivity.
Qed.

Lemma frame_track_first_response :
  (forall v t, f (set_firstResponseAt v t) = f t) ->
  (forall v t, f (set_responseTime v t) = f t) ->
  forall t, f (track_first_response t) = f t.
Proof.
  intros H1 H2 t. unfold track_first_response.
  destruct ((0 <? Z.of_nat (List.length (comments t)))%Z
            && negb (is_set (firstResponseAt t))); [| reflexivity].
  destruct (filter counts_as_response (comments t)); [reflexivity |].
  cbv zeta. rewrite H2, H1. reflexivity.
Qed.

Lemma frame_track_resolution :
  (forall v t, f (set_resolvedAt v t) = f t) ->
  (forall v t, f (set_resolutionTime v t) = f t) ->
  forall t, f (track_resolution now t) = f t.
Proof.
  intros H1 H2 t. unfold track_resolution.
  destruct (Status_eqb (status t) resolved
            && negb (is_set (resolvedAt (resolution t)))); [| reflexivity].
  cbv zeta. rewrite H2, H1. reflexivity.
Qed.

Lemma frame_track_closure :
  (forall v t, f (set_closedAt v t) = f t) ->
  forall t, f (track_closure now t) = f t.
Proof.
  intros H t. unfold track_closure.
  destruct (Status_eqb (status t) closed && negb (is_set (closedAt t)));
    [apply H | reflexivity].
Qed.

Lemma frame_check_sla_breach :
  (forall v t, f (set_breached v t) = f t) ->
  forall t, f (check_sla_breach now t) = f t.
Proof.
  intros H t. unfold check_sla_breach. cbv zeta.
  repeat match goal with
  | |- context [if ?b then _ else _] => destruct b
  end; rewrite ?H; reflexivity.
Qed.

(** A reading that no assignment of the hook changes is not changed by the
    hook. *)
Lemma frame_pre_save :
  (forall v t, f (set_ticketNumber v t) = f t) ->
  (forall v t, f (set_sla v t) = f t) ->
  (forall v t, f (set_firstResponseAt v t) = f t) ->
  (forall v t, f (set_resolution v t) = f t) ->
  (forall v t, f (set_closedAt v t) = f t) ->
  forall t, f (pre_save now count t) = f t.
Proof.
  intros Hn Hs Hf Hr Hc t. unfold pre_save. cbv zeta.
  rewrite frame_check_sla_breach by (intros; apply Hs).
  rewrite frame_track_closure by exact Hc.
  rewrite frame_track_resolution by (intros; first [apply Hr | apply Hs]).
  rewrite frame_track_first_response by (intros; first [apply Hf | apply Hs]).
  rewrite frame_set_sla_deadlines by (intros; apply Hs).
  apply frame_generate_ticket_number, Hn.
Qed.

End Frames.

(** [save] runs the hook between the stamping and the writing. *)
Lemma save_eq now count t :
  save now count t
  = (Fulfilled, written (pre_save now count (stamp (getTime now) t))).
Proof. reflexivity. Qed.

(** The store around the hook: what stamping and writing leave alone. *)
Lemma status_stamp n t : status (stamp n t) = status t.
Proof. reflexivity. Qed.

Lemma resolution_stamp n t : resolution (stamp n t) = resolution t.
Proof. reflexivity. Qed.

Lemma sla_stamp n t : sla (stamp n t) = sla t.
Proof. reflexivity. Qed.

Lemma isNew_stamp n t : isNew (stamp n t) = isNew t.
Proof. reflexivity. Qed.

Lemma priority_stamp n t : priority (stamp n t) = priority t.
Proof. reflexivity. Qed.

Lemma resolution_written t : resolution (written t) = resolution t.
Proof. reflexivity. Qed.

Lemma sla_written t : sla (written t) = sla t.
Proof. reflexivity. Qed.

Lemma firstResponseAt_written t : firstResponseAt (written t) = firstResponseAt t.
Proof. reflexivity. Qed.

Lemma createdAt_written t : createdAt (written t) = createdAt t.
Proof. reflexivity. Qed.

(** A reading that neither the store nor the hook changes is not changed by
    [save]. *)
Lemma frame_save (A : Type) (f : Document -> A) now count :
  (forall t, f (written t) = f t) ->
  (forall n t, f (stamp n t) = f t) ->
  (forall v t, f (set_ticketNumber v t) = f t) ->
  (forall v t, f (set_sla v t) = f t) ->
  (forall v t, f (set_firstResponseAt v t) = f t) ->
  (forall v t, f (set_resolution v t) = f t) ->
  (forall v t, f (set_closedAt v t) = f t) ->
  forall t, f (snd (save now count t)) = f t.
Proof.
  intros Hw Hst Hn Hs Hf Hr Hc t. rewrite save_eq. unfold snd.
  rewrite Hw, (frame_pre_save now count A f) by assumption. apply Hst.
Qed.

(** The paths that neither the store nor the hook assigns. *)
Lemma status_save now count t : status (snd (save now count t)) = status t.
Proof. apply (frame_save _ status); reflexivity. Qed.

Lemma comments_save now count t :
  comments (snd (save now count t)) = comments t.
Proof. apply (frame_save _ comments); reflexivity. Qed.

Lemma reopenedCount_save now count t :
  reopenedCount (snd (save now count t)) = reopenedCount t.
Proof. apply (frame_save _ reopenedCount); reflexivity. Qed.

Lemma lastReopenedAt_save now count t :
  lastReopenedAt (snd (save now count t)) = lastReopenedAt t.
Proof. apply (frame_save _ lastReopenedAt); reflexivity. Qed.

Lemma priority_save now count t :
  priority (snd (save now count t)) = priority t.
Proof. apply (frame_save _ priority); reflexivity. Qed.

(** Rewriting with a frame lemma at a given reading. *)
Ltac frame L :=
  let H := fresh "Hframe" in
  pose proof L as H; cbv beta in H;
  rewrite H by (intros; reflexivity); clear H.

(** *** Resolution *)

(** The block that tracks the resolution acts only on a resolved ticket
    whose record has no date. *)
Lemma track_resolution_skip now t :
  status t <> resolved \/ is_set (resolvedAt (resolution t)) = true ->
  track_resolution now t = t.
Proof.
  intros [H | H]; unfold track_resolution.
  - apply ticket_Status_eqb_neq in H. rewrite H. reflexivity.
  - rewrite H, andb_false_r. reflexivity.
Qed.

Lemma pre_save_skips_resolution now count t :
  status t <> resolved \/ is_set (resolvedAt (resolution t)) = true ->
  resolution (pre_save now count t) = resolution t
  /\ resolutionTime (sla (pre_save now count t)) = resolutionTime (sla t).
Proof.
  intros H. unfold pre_save. cbv zeta.
  set (y := track_first_response
              (set_sla_deadlines now (generate_ticket_number now count t))).
  assert (Hst : status y = status t).
  { subst y.
    frame (frame_track_first_response _ status).
    frame (frame_set_sla_deadlines now _ status).
    frame (frame_generate_ticket_number now count _ status). reflexivity. }
  assert (Hres : resolution y = resolution t).
  { subst y.
    frame (frame_track_first_response _ resolution).
    frame (frame_set_sla_deadlines now _ resolution).
    frame (frame_generate_ticket_number now count _ resolution). reflexivity. }
  assert (Htime : resolutionTime (sla y) = resolutionTime (sla t)).
  { subst y.
    frame (frame_track_first_response _ (fun t => resolutionTime (sla t))).
    frame (frame_set_sla_deadlines now _ (fun t => resolutionTime (sla t))).
    frame (frame_generate_ticket_number now count _
             (fun t => resolutionTime (sla t))).
    reflexivity. }
  rewrite (track_resolution_skip now y) by (rewrite Hst, Hres; exact H).
  split.
  - frame (frame_check_sla_breach now _ resolution).
    frame (frame_track_closure now _ resolution). exact Hres.
  - frame (frame_check_sla_breach now _ (fun t => resolutionTime (sla t))).
    frame (frame_track_closure now _ (fun t => resolutionTime (sla t))).
    exact Htime.
Qed.

Lemma save_skips_resolution now count t :
  status t <> resolved \/ is_set (resolvedAt (resolution t)) = true ->
  resolution (snd (save now count t)) = resolution t
  /\ resolutionTime (sla (snd (save now count t))) = resolutionTime (sla t).
Proof.
  intros H. rewrite save_eq. unfold snd.
  rewrite resolution_written, sla_written.
  destruct (pre_save_skips_resolution now count (stamp (getTime now) t))
    as [Hres Htime].
  { rewrite status_stamp, resolution_stamp. exact H. }
  rewrite Hres, Htime, resolution_stamp, sla_stamp. split; reflexivity.
Qed.

(** The assignments of [resolve], before its save. *)
Lemma resolve_eq now count resolutionText resolvedById t :
  resolve now count resolutionText resolvedById t
  = save now count
      (set_resolution
         (mkResolution (Some resolutionText) (Some resolvedById)
            (Some (getTime now)))
         (set_status resolved t)).
Proof. reflexivity. Qed.

(** C1, as the code has it.  On a ticket that is already resolved,
    [resolve(text, resolverId)] does not throw: the save is fulfilled, the
    status stays resolved and the resolution record is replaced by the new
    text, resolver and date. *)
Theorem resolve_resolved_overwrites now count resolutionText resolvedById t :
  status t = resolved ->
  fst (resolve now count resolutionText resolvedById t) = Fulfilled
  /\ status (snd (resolve now count resolutionText resolvedById t)) = resolved
  /\ resolution (snd (resolve now count resolutionText resolvedById t))
     = mkResolution (Some resolutionText) (Some resolvedById)
         (Some (getTime now)).
Proof.
  intros _.
  rewrite resolve_eq. split; [| split].
  - rewrite save_eq. reflexivity.
  - rewrite status_save. reflexivity.
  - destruct (save_skips_resolution now count
                (set_resolution
                   (mkResolution (Some resolutionText) (Some resolvedById)
                      (Some (getTime now)))
                   (set_status resolved t))) as [Hres _].
    + right. reflexivity.
    + rewrite Hres. reflexivity.
Qed.

Lemma resolve_resolved_overwrites_witness :
  status (Samples.ticket resolved Samples.resolved_by_admin) = resolved
  /\ fst (resolve Samples.t2h 2 "Resolved again" (Id 8)
            (Samples.ticket resolved Samples.resolved_by_admin)) = Fulfilled
  /\ status (snd (resolve Samples.t2h 2 "Resolved again" (Id 8)
                    (Samples.ticket resolved Samples.resolved_by_admin)))
     = resolved
  /\ resolution (snd (resolve Samples.t2h 2 "Resolved again" (Id 8)
                        (Samples.ticket resolved Samples.resolved_by_admin)))
     = mkResolution (Some "Resolved again") (Some (Id 8)) (Some 1700007200000).
Proof.
  split; [reflexivity |].
  apply (resolve_resolved_overwrites Samples.t2h 2 "Resolved again" (Id 8)
           (Samples.ticket resolved Samples.resolved_by_admin)).
  reflexivity.
Defined.

(** C1, as stated, fails: on a resolved ticket [resolve] is not rejected, and
    the resolution record that was there is overwritten. *)
Lemma resolve_resolved_not_rejected :
  status (Samples.ticket resolved Samples.resolved_by_admin) = resolved
  /\ fst (resolve Samples.t2h 2 "Resolved again" (Id 8)
            (Samples.ticket resolved Samples.resolved_by_admin)) = Fulfilled
  /\ resolution (snd (resolve Samples.t2h 2 "Resolved again" (Id 8)
                        (Samples.ticket resolved Samples.resolved_by_admin)))
     <> resolution (Samples.ticket resolved Samples.resolved_by_admin).
Proof.
  split; [reflexivity | split; [reflexivity |]].
  vm_compute. discriminate.
Qed.

(** C4, on the code.  [resolve] assigns the date of the resolution record
    itself, so the block of the hook that would compute the resolution time
    finds the date set and is skipped: [sla.resolutionTime] is what it was
    before the call, on every ticket. *)
Theorem resolve_leaves_resolutionTime now count resolutionText resolvedById t :
  resolutionTime (sla (snd (resolve now count resolutionText resolvedById t)))
  = resolutionTime (sla t).
Proof.
  rewrite resolve_eq.
  destruct (save_skips_resolution now count
              (set_resolution
                 (mkResolution (Some resolutionText) (Some resolvedById)
                    (Some (getTime now)))
                 (set_status resolved t))) as [_ Htime].
  - right. reflexivity.
  - rewrite Htime. reflexivity.
Qed.

(** The scenario of the specification: a ticket created at [t0] and resolved
    two hours later has the status and the record of a resolved ticket, and
    no resolution time, where two hours were expected. *)
Example resolve_after_two_hours :
  status (snd (resolve Samples.t2h 2 "Cache cleared" (Id 7)
                 (Samples.ticket open no_resolution))) = resolved
  /\ resolvedAt (resolution (snd (resolve Samples.t2h 2 "Cache cleared" (Id 7)
                                    (Samples.ticket open no_resolution))))
     = Some 1700007200000
  /\ resolutionTime (sla (snd (resolve Samples.t2h 2 "Cache cleared" (Id 7)
                                 (Samples.ticket open no_resolution)))) = None
  /\ hours_since (createdAt (Samples.ticket open no_resolution)) 1700007200000
     = Some (Qmake 7200000 3600000).
Proof. vm_compute. repeat split. Qed.

(** *** SLA deadlines *)

(** The hook on a stored ticket leaves both deadlines as they are. *)
Lemma deadlines_pre_save_stored now count t :
  isNew t = false ->
  (responseDeadline (sla (pre_save now count t)),
   resolutionDeadline (sla (pre_save now count t)))
  = (responseDeadline (sla t), resolutionDeadline (sla t)).
Proof.
  intros Hnew. unfold pre_save. cbv zeta.
  frame (frame_check_sla_breach now _
           (fun t => (responseDeadline (sla t), resolutionDeadline (sla t)))).
  frame (frame_track_closure now _
           (fun t => (responseDeadline (sla t), resolutionDeadline (sla t)))).
  frame (frame_track_resolution now _
           (fun t => (responseDeadline (sla t), resolutionDeadline (sla t)))).
  frame (frame_track_first_response _
           (fun t => (responseDeadline (sla t), resolutionDeadline (sla t)))).
  unfold set_sla_deadlines.
  frame (frame_generate_ticket_number now count _ isNew).
  rewrite Hnew.
  frame (frame_generate_ticket_number now count _
           (fun t => (responseDeadline (sla t), resolutionDeadline (sla t)))).
  reflexivity.
Qed.

(** The hook on a new ticket sets both deadlines from the priority. *)
Lemma deadlines_pre_save_new now count t :
  isNew t = true ->
  (responseDeadline (sla (pre_save now count t)),
   resolutionDeadline (sla (pre_save now count t)))
  = match priority t with
    | urgent => (Some (getTime now + 2 * ms_per_hour),
                 Some (getTime now + 24 * ms_per_hour))
    | high => (Some (getTime now + 4 * ms_per_hour),
               Some (getTime now + 48 * ms_per_hour))
    | medium => (Some (getTime now + 24 * ms_per_hour),
                 Some (getTime now + 72 * ms_per_hour))
    | low => (Some (getTime now + 48 * ms_per_hour),
              Some (getTime now + 120 * ms_per_hour))
    end.
Proof.
  intros Hnew. unfold pre_save. cbv zeta.
  frame (frame_check_sla_breach now _
           (fun t => (responseDeadline (sla t), resolutionDeadline (sla t)))).
  frame (frame_track_closure now _
           (fun t => (responseDeadline (sla t), resolutionDeadline (sla t)))).
  frame (frame_track_resolution now _
           (fun t => (responseDeadline (sla t), resolutionDeadline (sla t)))).
  frame (frame_track_first_response _
           (fun t => (responseDeadline (sla t), resolutionDeadline (sla t)))).
  unfold set_sla_deadlines.
  frame (frame_generate_ticket_number now count _ isNew).
  frame (frame_generate_ticket_number now count _ priority).
  rewrite Hnew. unfold ms_per_hour.
  destruct (priority t); cbv zeta beta iota;
    cbn [sla set_sla set_responseDeadline set_resolutionDeadline
         responseDeadline resolutionDeadline];
    repeat f_equal; lia.
Qed.

(** One save of a stored ticket keeps it stored and leaves its creation date,
    its priority and its deadlines. *)
Lemma save_stored now count t :
  isNew t = false ->
  isNew (snd (save now count t)) = false
  /\ createdAt (snd (save now count t)) = createdAt t
  /\ priority (snd (save now count t)) = priority t
  /\ (responseDeadline (sla (snd (save now count t))),
      resolutionDeadline (sla (snd (save now count t))))
     = (responseDeadline (sla t), resolutionDeadline (sla t)).
Proof.
  intros Hnew. split; [| split; [| split]].
  - rewrite save_eq. reflexivity.
  - rewrite save_eq. unfold snd. rewrite createdAt_written.
    rewrite (frame_pre_save now count _ createdAt) by reflexivity.
    unfold stamp. cbn [createdAt]. rewrite Hnew. reflexivity.
  - apply priority_save.
  - rewrite save_eq. unfold snd. rewrite sla_written.
    rewrite deadlines_pre_save_stored by (rewrite isNew_stamp; exact Hnew).
    rewrite sla_stamp. reflexivity.
Qed.

(** A method that ends in [save]: the fact about the saved document, read on
    the document the method was called on. *)
Ltac after_save :=
  match goal with
  | Hnew : isNew _ = false |- context [save ?now ?count ?x] =>
      exact (save_stored now count x Hnew)
  end.

(** The same for every call, whether it saves or throws. *)
Lemma call_stored now count c t :
  isNew t = false ->
  isNew (snd (call now count c t)) = false
  /\ createdAt (snd (call now count c t)) = createdAt t
  /\ priority (snd (call now count c t)) = priority t
  /\ (responseDeadline (sla (snd (call now count c t))),
      resolutionDeadline (sla (snd (call now count c t))))
     = (responseDeadline (sla t), resolutionDeadline (sla t)).
Proof.
  intros Hnew.
  destruct c as [| text_ authorId isInternal_ attachments_ | agentId
                 | resolutionText resolvedById | reason | score_ feedback_];
    cbn [call].
  - apply save_stored, Hnew.
  - unfold addComment. after_save.
  - unfold assignToAgent. after_save.
  - unfold resolve. after_save.
  - unfold reopen.
    destruct (Status_eqb (status t) closed || Status_eqb (status t) resolved);
      [destruct (truthy (Some reason)) |]; after_save.
  - unfold addRating.
    destruct (negb (Status_eqb (status t) resolved)
              && negb (Status_eqb (status t) closed)).
    + cbn [snd]. auto.
    + after_save.
Qed.

Lemma calls_stored h : forall t,
  isNew t = false ->
  createdAt (calls h t) = createdAt t
  /\ priority (calls h t) = priority t
  /\ (responseDeadline (sla (calls h t)), resolutionDeadline (sla (calls h t)))
     = (responseDeadline (sla t), resolutionDeadline (sla t)).
Proof.
  induction h as [| [[now count] c] h IH]; intros t Hnew; cbn [calls].
  - auto.
  - destruct (call_stored now count c t Hnew) as (Hn & Hc & Hp & Hd).
    destruct (IH _ Hn) as (Hc' & Hp' & Hd').
    rewrite Hc', Hp', Hd', Hc, Hp, Hd. auto.
Qed.

(** C5.  The first save of a new ticket dates its creation and sets the two
    deadlines to the creation date plus the hours of its priority: urgent
    (2, 24), high (4, 48), medium (24, 72), low (48, 120); and after every
    history of calls the creation date and the deadlines are still those. *)
Theorem sla_deadlines_set_once now count t h :
  isNew t = true -> createdAt t = None ->
  createdAt (calls h (snd (save now count t))) = Some (getTime now)
  /\ (responseDeadline (sla (calls h (snd (save now count t)))),
      resolutionDeadline (sla (calls h (snd (save now count t)))))
     = match priority t with
       | urgent => (Some (getTime now + 2 * ms_per_hour),
                    Some (getTime now + 24 * ms_per_hour))
       | high => (Some (getTime now + 4 * ms_per_hour),
                  Some (getTime now + 48 * ms_per_hour))
       | medium => (Some (getTime now + 24 * ms_per_hour),
                    Some (getTime now + 72 * ms_per_hour))
       | low => (Some (getTime now + 48 * ms_per_hour),
                 Some (getTime now + 120 * ms_per_hour))
       end.
Proof.
  intros Hnew Hnone.
  assert (Hstored : isNew (snd (save now count t)) = false)
    by (rewrite save_eq; reflexivity).
  destruct (calls_stored h _ Hstored) as (Hc & _ & Hd).
  rewrite Hc, Hd. clear Hc Hd Hstored.
  rewrite save_eq. unfold snd. rewrite createdAt_written, sla_written. split.
  - rewrite (frame_pre_save now count _ createdAt) by reflexivity.
    unfold stamp. cbn [createdAt]. rewrite Hnew, Hnone. reflexivity.
  - rewrite deadlines_pre_save_new by (rewrite isNew_stamp; exact Hnew).
    rewrite priority_stamp. reflexivity.
Qed.

Lemma sla_deadlines_set_once_witness :
  createdAt
    (calls [(Samples.t2h, 5, CallAssignToAgent (Id 7));
            (Samples.t2h, 5, CallResolve "Cache cleared" (Id 7));
            (Samples.t2h, 6, CallReopen "Still broken")]
       (snd (save Samples.t0 4
               (new_document 11 (Some "temp") technical None
                  "Unable to view project images"
                  "The images are not loading." urgent))))
  = Some 1700000000000
  /\ (responseDeadline
        (sla (calls [(Samples.t2h, 5, CallAssignToAgent (Id 7));
                     (Samples.t2h, 5, CallResolve "Cache cleared" (Id 7));
                     (Samples.t2h, 6, CallReopen "Still broken")]
                (snd (save Samples.t0 4
                        (new_document 11 (Some "temp") technical None
                           "Unable to view project images"
                           "The images are not loading." urgent))))),
      resolutionDeadline
        (sla (calls [(Samples.t2h, 5, CallAssignToAgent (Id 7));
                     (Samples.t2h, 5, CallResolve "Cache cleared" (Id 7));
                     (Samples.t2h, 6, CallReopen "Still broken")]
                (snd (save Samples.t0 4
                        (new_document 11 (Some "temp") technical None
                           "Unable to view project images"
                           "The images are not loading." urgent))))))
     = (Some (1700000000000 + 2 * ms_per_hour),
        Some (1700000000000 + 24 * ms_per_hour)).
Proof.
  apply (sla_deadlines_set_once Samples.t0 4
           (new_document 11 (Some "temp") technical None
              "Unable to view project images" "The images are not loading."
              urgent)
           [(Samples.t2h, 5, CallAssignToAgent (Id 7));
            (Samples.t2h, 5, CallResolve "Cache cleared" (Id 7));
            (Samples.t2h, 6, CallReopen "Still broken")]).
  - reflexivity.
  - reflexivity.
Defined.

(** *** Reopening *)

(** One save of a ticket that is not resolved leaves its status, its
    resolution record, its reopen counter and date, and its comments. *)
Lemma save_unresolved now count t :
  status t <> resolved ->
  status (snd (save now count t)) = status t
  /\ resolution (snd (save now count t)) = resolution t
  /\ reopenedCount (snd (save now count t)) = reopenedCount t
  /\ lastReopenedAt (snd (save now count t)) = lastReopenedAt t
  /\ comments (snd (save now count t)) = comments t.
Proof.
  intros Hs.
  destruct (save_skips_resolution now count t (or_introl Hs)) as [Hres _].
  rewrite status_save, Hres, reopenedCount_save, lastReopenedAt_save,
    comments_save.
  repeat split.
Qed.

(** C7, as the code has it.  From resolved or closed, [reopen(reason)] sets
    the status to open, clears the resolution record, adds one to the reopen
    counter and dates the reopening; it appends a comment noting the reason,
    authored as the customer of the ticket, when the reason is not empty, and
    no comment when it is.  From open or in_review it leaves the status, the
    counter, the resolution record and the comments. *)
Theorem reopen_outcome now count reason t :
  (status t = resolved \/ status t = closed ->
   status (snd (reopen now count reason t)) = open
   /\ resolution (snd (reopen now count reason t)) = no_resolution
   /\ reopenedCount (snd (reopen now count reason t)) = reopenedCount t + 1
   /\ lastReopenedAt (snd (reopen now count reason t)) = Some (getTime now)
   /\ (reason <> "" ->
       comments (snd (reopen now count reason t))
       = (comments t
            ++ [mkComment ("Ticket reopened: " ++ reason) (customerId t) false
                  [] (getTime now)])%list)
   /\ (reason = "" -> comments (snd (reopen now count reason t)) = comments t))
  /\ (status t = open \/ status t = in_review ->
      status (snd (reopen now count reason t)) = status t
      /\ reopenedCount (snd (reopen now count reason t)) = reopenedCount t
      /\ resolution (snd (reopen now count reason t)) = resolution t
      /\ comments (snd (reopen now count reason t)) = comments t).
Proof.
  split; intros Hs.
  - assert (Hc : Status_eqb (status t) closed || Status_eqb (status t) resolved
                 = true)
      by (destruct Hs as [Hs | Hs]; rewrite Hs; reflexivity).
    unfold reopen. rewrite Hc. cbv zeta.
    destruct reason as [| c reason]; cbn [truthy].
    + match goal with
      | |- context [save now count ?x] =>
          destruct (save_unresolved now count x) as (H1 & H2 & H3 & H4 & H5);
            [cbn [status set_resolution set_lastReopenedAt set_reopenedCount
                  set_status]; discriminate |]
      end.
      rewrite H1, H2, H3, H4, H5. repeat split. intros Hne. congruence.
    + match goal with
      | |- context [save now count ?x] =>
          destruct (save_unresolved now count x) as (H1 & H2 & H3 & H4 & H5);
            [cbn [status set_comments set_resolution set_lastReopenedAt
                  set_reopenedCount set_status]; discriminate |]
      end.
      rewrite H1, H2, H3, H4, H5. repeat split. intros He. discriminate He.
  - assert (Hc : Status_eqb (status t) closed || Status_eqb (status t) resolved
                 = false)
      by (destruct Hs as [Hs | Hs]; rewrite Hs; reflexivity).
    unfold reopen. rewrite Hc.
    destruct (save_unresolved now count t) as (H1 & H2 & H3 & _ & H5).
    { destruct Hs as [Hs | Hs]; rewrite Hs; discriminate. }
    rewrite H1, H2, H3, H5. repeat split.
Qed.

Lemma reopen_outcome_witness :
  (status (snd (reopen Samples.t2h 2 "Customer reopened the ticket"
                  (Samples.ticket resolved Samples.resolved_by_admin))) = open
   /\ reopenedCount
        (snd (reopen Samples.t2h 2 "Customer reopened the ticket"
                (Samples.ticket resolved Samples.resolved_by_admin))) = 0 + 1
   /\ comments
        (snd (reopen Samples.t2h 2 "Customer reopened the ticket"
                (Samples.ticket resolved Samples.resolved_by_admin)))
      = ([] ++ [mkComment "Ticket reopened: Customer reopened the ticket"
                  (Id 11) false [] 1700007200000])%list)
  /\ status (snd (reopen Samples.t2h 2 "Customer reopened the ticket"
                    (Samples.ticket in_review no_resolution))) = in_review.
Proof.
  destruct (reopen_outcome Samples.t2h 2 "Customer reopened the ticket"
              (Samples.ticket resolved Samples.resolved_by_admin))
    as [Hfrom _].
  destruct (reopen_outcome Samples.t2h 2 "Customer reopened the ticket"
              (Samples.ticket in_review no_resolution)) as [_ Hkeep].
  destruct (Hfrom (or_introl eq_refl)) as (Hs & _ & Hn & _ & Hc & _).
  destruct (Hkeep (or_intror eq_refl)) as (Hs' & _).
  split; [split; [exact Hs | split; [exact Hn |]] | exact Hs'].
  apply Hc. discriminate.
Defined.

(** C7, as stated, fails: reopened with an empty reason, a resolved ticket
    gets no comment. *)
Lemma reopen_without_reason_no_comment :
  status (Samples.ticket resolved Samples.resolved_by_admin) = resolved
  /\ status (snd (reopen Samples.t2h 2 ""
                    (Samples.ticket resolved Samples.resolved_by_admin))) = open
  /\ comments (snd (reopen Samples.t2h 2 ""
                      (Samples.ticket resolved Samples.resolved_by_admin)))
     = comments (Samples.ticket resolved Samples.resolved_by_admin)
  /\ forall c,
      comments (snd (reopen Samples.t2h 2 ""
                       (Samples.ticket resolved Samples.resolved_by_admin)))
      <> (comments (Samples.ticket resolved Samples.resolved_by_admin)
            ++ [c])%list.
Proof.
  split; [reflexivity | split; [reflexivity | split; [reflexivity |]]].
  intros c. vm_compute. discriminate.
Qed.

(** *** First response *)

(** The block that tracks the first response does nothing when no comment
    counts as a response. *)
Lemma track_first_response_none t :
  filter counts_as_response (comments t) = [] -> track_first_response t = t.
Proof.
  intros Hf. unfold track_first_response. rewrite Hf.
  destruct ((0 <? Z.of_nat (List.length (comments t)))%Z
            && negb (is_set (firstResponseAt t))); reflexivity.
Qed.

(** When no response is recorded and some comment counts as one, the block
    records the first of them. *)
Lemma track_first_response_first t first rest :
  firstResponseAt t = None ->
  filter counts_as_response (comments t) = first :: rest ->
  firstResponseAt (track_first_response t) = Some (comment_createdAt first)
  /\ responseTime (sla (track_first_response t))
     = hours_since (createdAt t) (comment_createdAt first).
Proof.
  intros Hnone Hf. unfold track_first_response. rewrite Hf, Hnone.
  destruct (comments t) as [| c l]; [discriminate Hf |].
  replace (0 <? Z.of_nat (List.length (c :: l)))%Z with true
    by (symmetry; apply Z.ltb_lt; cbn [List.length]; lia).
  split; reflexivity.
Qed.

(** The hook, read on the first response, in terms of its third block. *)
Lemma pre_save_first_response now count t :
  firstResponseAt (pre_save now count t)
  = firstResponseAt
      (track_first_response
         (set_sla_deadlines now (generate_ticket_number now count t)))
  /\ responseTime (sla (pre_save now count t))
     = responseTime
         (sla (track_first_response
                 (set_sla_deadlines now (generate_ticket_number now count t)))).
Proof.
  unfold pre_save. cbv zeta. split.
  - frame (frame_check_sla_breach now _ firstResponseAt).
    frame (frame_track_closure now _ firstResponseAt).
    frame (frame_track_resolution now _ firstResponseAt). reflexivity.
  - frame (frame_check_sla_breach now _ (fun t => responseTime (sla t))).
    frame (frame_track_closure now _ (fun t => responseTime (sla t))).
    frame (frame_track_resolution now _ (fun t => responseTime (sla t))).
    reflexivity.
Qed.

(** The first two blocks leave the comments, the first response, the
    response time and the creation date. *)
Lemma before_first_response now count t :
  let y := set_sla_deadlines now (generate_ticket_number now count t) in
  comments y = comments t
  /\ firstResponseAt y = firstResponseAt t
  /\ responseTime (sla y) = responseTime (sla t)
  /\ createdAt y = createdAt t.
Proof.
  cbv zeta. repeat split.
  - frame (frame_set_sla_deadlines now _ comments).
    frame (frame_generate_ticket_number now count _ comments). reflexivity.
  - frame (frame_set_sla_deadlines now _ firstResponseAt).
    frame (frame_generate_ticket_number now count _ firstResponseAt).
    reflexivity.
  - frame (frame_set_sla_deadlines now _ (fun t => responseTime (sla t))).
    frame (frame_generate_ticket_number now count _
             (fun t => responseTime (sla t))).
    reflexivity.
  - frame (frame_set_sla_deadlines now _ createdAt).
    frame (frame_generate_ticket_number now count _ createdAt). reflexivity.
Qed.

(** C9, on the code.  [addComment] stores the author it is given; given the
    id of an admin, as the request layer gives it, the comment has no role
    for the hook to read.  On a ticket without response, an internal comment
    added under an id is not counted: [firstResponseAt] stays unset and
    [sla.responseTime] stays what it was. *)
Theorem internal_comment_under_id_is_no_response
  now count text_ adminId attachments_ t :
  firstResponseAt t = None ->
  filter counts_as_response (comments t) = [] ->
  firstResponseAt
    (snd (addComment now count text_ (Id adminId) true attachments_ t)) = None
  /\ responseTime
       (sla (snd (addComment now count text_ (Id adminId) true attachments_ t)))
     = responseTime (sla t).
Proof.
  intros Hnone Hf. unfold addComment. cbv zeta. rewrite save_eq. unfold snd.
  rewrite firstResponseAt_written, sla_written.
  match goal with
  | |- context [pre_save now count ?x] =>
      destruct (pre_save_first_response now count x) as [H1 H2];
      destruct (before_first_response now count x) as (Hc & Hr & Ht & _)
  end.
  rewrite H1, H2, track_first_response_none.
  - rewrite Hr, Ht. split; [exact Hnone | reflexivity].
  - rewrite Hc. cbn [comments stamp set_comments].
    rewrite filter_app, Hf. reflexivity.
Qed.

Lemma internal_comment_under_id_is_no_response_witness :
  firstResponseAt
    (snd (addComment Samples.t2h 2 "Checked the CDN logs" (Id 7) true []
            (Samples.ticket open no_resolution))) = None
  /\ responseTime
       (sla (snd (addComment Samples.t2h 2 "Checked the CDN logs" (Id 7) true []
                    (Samples.ticket open no_resolution))))
     = responseTime (sla (Samples.ticket open no_resolution)).
Proof.
  apply (internal_comment_under_id_is_no_response Samples.t2h 2
           "Checked the CDN logs" 7 [] (Samples.ticket open no_resolution)).
  - reflexivity.
  - reflexivity.
Defined.


(** *** The breach flag *)

(** The last block of the hook only ever assigns [true] to the flag. *)
Lemma breached_check_sla_breach now t :
  breached (sla t) = true -> breached (sla (check_sla_breach now t)) = true.
Proof.
  intros H. unfold check_sla_breach. cbv zeta.
  repeat match goal with
  | |- context [if ?b then _ else _] => destruct b
  end; (reflexivity || exact H).
Qed.

Lemma breached_save now count t :
  breached (sla t) = true -> breached (sla (snd (save now count t))) = true.
Proof.
  intros H. rewrite save_eq. unfold snd. rewrite sla_written.
  unfold pre_save. cbv zeta. apply breached_check_sla_breach.
  frame (frame_track_closure now _ (fun t => breached (sla t))).
  frame (frame_track_resolution now _ (fun t => breached (sla t))).
  frame (frame_track_first_response _ (fun t => breached (sla t))).
  frame (frame_set_sla_deadlines now _ (fun t => breached (sla t))).
  frame (frame_generate_ticket_number now count _ (fun t => breached (sla t))).
  rewrite sla_stamp. exact H.
Qed.

(** No method assigns the flag: a call, whether it saves or throws, keeps a
    flag that is set. *)
Lemma breached_call now count c t :
  breached (sla t) = true -> breached (sla (snd (call now count c t))) = true.
Proof.
  intros H.
  destruct c as [| text_ authorId isInternal_ attachments_ | agentId
                 | resolutionText resolvedById | reason | score_ feedback_];
    cbn [call].
  - apply breached_save, H.
  - unfold addComment. apply breached_save. exact H.
  - unfold assignToAgent. apply breached_save. exact H.
  - unfold resolve. apply breached_save. exact H.
  - unfold reopen.
    destruct (Status_eqb (status t) closed || Status_eqb (status t) resolved);
      [destruct (truthy (Some reason)) |];
      (apply breached_save; exact H).
  - unfold addRating.
    destruct (negb (Status_eqb (status t) resolved)
              && negb (Status_eqb (status t) closed)).
    + exact H.
    + apply breached_save. exact H.
Qed.

(** C10.  Once [sla.breached] is true, it is true after each call
    ([addComment], [assignToAgent], [resolve], [reopen], [addRating], a plain
    [save]) and after every history of calls. *)
Theorem breached_is_never_cleared t :
  breached (sla t) = true ->
  (forall now count c, breached (sla (snd (call now count c t))) = true)
  /\ (forall h, breached (sla (calls h t)) = true).
Proof.
  intros H. split.
  - intros now count c. apply breached_call, H.
  - intros h. revert t H.
    induction h as [| [[now count] c] h IH]; intros t H; cbn [calls].
    + exact H.
    + apply IH, breached_call, H.
Qed.

Lemma breached_is_never_cleared_witness :
  breached
    (sla (calls [(Samples.t2h, 5, CallAddComment "Sorry for the delay" (Id 7)
                    false []);
                 (Samples.t2h, 5, CallResolve "Cache cleared" (Id 7));
                 (Samples.t2h, 6, CallReopen "Still broken")]
            (set_breached true (Samples.ticket open no_resolution)))) = true.
Proof.
  apply (breached_is_never_cleared
           (set_breached true (Samples.ticket open no_resolution))).
  reflexivity.
Defined.

End TicketLifecycle.

(** ** More of the ticket model: the other methods, the hook's other blocks
    and the virtuals *)

Module TicketModel.

Import SupportRequest.
Import TicketLifecycle.

(** *** A rule for the calls

    Every method is a sequence of assignments that ends in [save], or a
    [throw] before any assignment.  What holds of the document before a call
    and is kept by the assignments ([P]) gives, on the outcome of the call,
    what [save] and [throw] give on it ([Q]). *)
Section CallRule.

Variable now : Clock.
Variable count : Z.
Variable P : Document -> Prop.
Variable Q : completion * Document -> Prop.
Hypothesis save_rule : forall t, P t -> Q (save now count t).
Hypothesis throw_rule : forall reason t, P t -> Q (Threw reason, t).
Hypothesis P_comments : forall v t, P t -> P (set_comments v t).
Hypothesis P_assignedTo : forall v t, P t -> P (set_assignedTo v t).
Hypothesis P_status : forall v t, P t -> P (set_status v t).
Hypothesis P_resolution : forall v t, P t -> P (set_resolution v t).
Hypothesis P_reopenedCount : forall v t, P t -> P (set_reopenedCount v t).
Hypothesis P_lastReopenedAt : forall v t, P t -> P (set_lastReopenedAt v t).
Hypothesis P_rating : forall v t, P t -> P (set_rating v t).

Lemma call_rule c t : P t -> Q (call now count c t).
Proof.
  intros H.
  destruct c as [| text_ authorId isInternal_ attachments_ | agentId
                 | resolutionText resolvedById | reason | score_ feedback_];
    cbn [call].
  - apply save_rule, H.
  - unfold addComment. apply save_rule, P_comments, H.
  - unfold assignToAgent. apply save_rule, P_status, P_assignedTo, H.
  - unfold resolve. apply save_rule, P_resolution, P_status, H.
  - unfold reopen.
    destruct (Status_eqb (status t) closed || Status_eqb (status t) resolved);
      [destruct (truthy (Some reason)) |]; apply save_rule.
    + apply P_comments, P_resolution, P_lastReopenedAt, P_reopenedCount,
        P_status, H.
    + apply P_resolution, P_lastReopenedAt, P_reopenedCount, P_status, H.
    + exact H.
  - unfold addRating.
    destruct (negb (Status_eqb (status t) resolved)
              && negb (Status_eqb (status t) closed)).
    + apply throw_rule, H.
    + apply save_rule, P_rating, H.
Qed.

End CallRule.

(** A property that [save] keeps and that no assignment of the methods
    breaks holds after every history of calls. *)
Section Invariants.

Variable P : Document -> Prop.
Hypothesis P_save : forall now count t, P t -> P (snd (save now count t)).
Hypothesis P_comments : forall v t, P t -> P (set_comments v t).
Hypothesis P_assignedTo : forall v t, P t -> P (set_assignedTo v t).
Hypothesis P_status : forall v t, P t -> P (set_status v t).
Hypothesis P_resolution : forall v t, P t -> P (set_resolution v t).
Hypothesis P_reopenedCount : forall v t, P t -> P (set_reopenedCount v t).
Hypothesis P_lastReopenedAt : forall v t, P t -> P (set_lastReopenedAt v t).
Hypothesis P_rating : forall v t, P t -> P (set_rating v t).

Lemma calls_invariant h : forall t, P t -> P (calls h t).
Proof.
  induction h as [| [[now count] c] h IH]; intros t H; cbn [calls].
  - exact H.
  - apply IH.
    apply (call_rule now count P (fun r => P (snd r))); auto.
Qed.

End Invariants.

(** Two more paths that neither the store nor the hook assigns. *)
Lemma rating_save now count t : rating (snd (save now count t)) = rating t.
Proof. apply (frame_save _ rating); reflexivity. Qed.

Lemma assignedTo_save now count t :
  assignedTo (snd (save now count t)) = assignedTo t.
Proof. apply (frame_save _ assignedTo); reflexivity. Qed.

Lemma fst_save now count t : fst (save now count t) = Fulfilled.
Proof. reflexivity. Qed.

(** *** Rating *)



(** *** Assignment *)

(** X2.  [assignToAgent(agentId)] is fulfilled on every ticket: the assignee
    is the agent and the status is in_review whatever it was, also resolved
    or closed; the resolution record, the comments, the rating and the reopen
    counter are what they were, so a resolved ticket that is assigned goes
    back to review without being counted as reopened. *)
Theorem assignToAgent_outcome now count agentId t :
  fst (assignToAgent now count agentId t) = Fulfilled
  /\ assignedTo (snd (assignToAgent now count agentId t)) = Some agentId
  /\ status (snd (assignToAgent now count agentId t)) = in_review
  /\ resolution (snd (assignToAgent now count agentId t)) = resolution t
  /\ comments (snd (assignToAgent now count agentId t)) = comments t
  /\ rating (snd (assignToAgent now count agentId t)) = rating t
  /\ reopenedCount (snd (assignToAgent now count agentId t)) = reopenedCount t.
Proof.
  unfold assignToAgent. cbv zeta.
  destruct (save_unresolved now count
              (set_status in_review (set_assignedTo (Some agentId) t)))
    as (Hs & Hres & Hn & _ & Hc).
  { cbn [status set_status]. discriminate. }
  rewrite fst_save, assignedTo_save, rating_save, Hs, Hres, Hn, Hc.
  repeat split.
Qed.

(** *** Comments *)


(** *** The first response, once recorded *)

Lemma track_first_response_skip t :
  is_set (firstResponseAt t) = true -> track_first_response t = t.
Proof.
  intros H. unfold track_first_response. rewrite H, andb_false_r. reflexivity.
Qed.

Lemma save_keeps_first_response now count t :
  is_set (firstResponseAt t) = true ->
  firstResponseAt (snd (save now count t)) = firstResponseAt t
  /\ responseTime (sla (snd (save now count t))) = responseTime (sla t).
Proof.
  intros H. rewrite save_eq. unfold snd.
  rewrite firstResponseAt_written, sla_written.
  destruct (pre_save_first_response now count (stamp (getTime now) t))
    as [H1 H2].
  destruct (before_first_response now count (stamp (getTime now) t))
    as (_ & Hr & Ht & _).
  rewrite H1, H2, track_first_response_skip by (rewrite Hr; exact H).
  rewrite Hr, Ht, sla_stamp. split; reflexivity.
Qed.

(** One save of a ticket without recorded response, some comment of which
    counts as one. *)
Lemma save_records_first_response now count t first rest :
  firstResponseAt t = None ->
  filter counts_as_response (comments t) = first :: rest ->
  firstResponseAt (snd (save now count t)) = Some (comment_createdAt first)
  /\ responseTime (sla (snd (save now count t)))
     = hours_since (createdAt (stamp (getTime now) t))
         (comment_createdAt first).
Proof.
  intros Hnone Hf. rewrite save_eq. unfold snd.
  rewrite firstResponseAt_written, sla_written.
  destruct (pre_save_first_response now count (stamp (getTime now) t))
    as [H1 H2].
  destruct (before_first_response now count (stamp (getTime now) t))
    as (Hc & Hr & _ & Hd).
  rewrite H1, H2.
  match goal with
  | |- context [track_first_response ?y] =>
      destruct (track_first_response_first y first rest) as [H3 H4]
  end.
  - rewrite Hr. exact Hnone.
  - rewrite Hc. exact Hf.
  - rewrite H3, H4, Hd. split; reflexivity.
Qed.

(** X3.  Once a first response is recorded, it is recorded for good: after
    every history of calls, reopening included, [firstResponseAt] and
    [sla.responseTime] are what they were. *)
Theorem first_response_is_kept h t r :
  firstResponseAt t = Some r ->
  firstResponseAt (calls h t) = Some r
  /\ responseTime (sla (calls h t)) = responseTime (sla t).
Proof.
  intros Hr.
  apply (calls_invariant
           (fun x => firstResponseAt x = Some r
                     /\ responseTime (sla x) = responseTime (sla t)));
    try (intros v x H; exact H).
  - intros now count x [H1 H2].
    destruct (save_keeps_first_response now count x) as [H3 H4].
    + rewrite H1. reflexivity.
    + rewrite H3, H4. split; assumption.
  - split; [exact Hr | reflexivity].
Qed.

Lemma first_response_is_kept_witness :
  firstResponseAt
    (calls [(Samples.t2h, 2, CallAddComment "Any news?" (Id 11) false []);
            (Samples.t2h, 2, CallResolve "Cache cleared" (Id 7));
            (Samples.t2h, 2, CallReopen "Still broken")]
       (set_firstResponseAt (Some 1700000001000)
          (Samples.ticket open no_resolution)))
  = Some 1700000001000.
Proof.
  apply (first_response_is_kept
           [(Samples.t2h, 2, CallAddComment "Any news?" (Id 11) false []);
            (Samples.t2h, 2, CallResolve "Cache cleared" (Id 7));
            (Samples.t2h, 2, CallReopen "Still broken")]
           (set_firstResponseAt (Some 1700000001000)
              (Samples.ticket open no_resolution)) 1700000001000).
  reflexivity.
Defined.

(** X4.  The comment that [reopen] pushes is not internal, so the hook counts
    it as a response: reopening, with a reason, a stored ticket that was
    resolved or closed without any response records the reopening itself as
    the first response, at the date of the reopening. *)
Theorem reopen_comment_is_first_response now count reason t created :
  isNew t = false -> createdAt t = Some created ->
  status t = resolved \/ status t = closed ->
  reason <> "" ->
  firstResponseAt t = None ->
  filter counts_as_response (comments t) = [] ->
  firstResponseAt (snd (reopen now count reason t)) = Some (getTime now)
  /\ responseTime (sla (snd (reopen now count reason t)))
     = Some (elapsed_hours (getTime now) created).
Proof.
  intros Hnew Hcreated Hs Hreason Hnone Hf.
  assert (Hc : Status_eqb (status t) closed || Status_eqb (status t) resolved
               = true)
    by (destruct Hs as [Hs | Hs]; rewrite Hs; reflexivity).
  unfold reopen. rewrite Hc. cbv zeta.
  destruct reason as [| c reason]; [congruence |]. cbn [truthy].
  match goal with
  | |- context [save now count ?x] =>
      destruct (save_records_first_response now count x
                  (mkComment ("Ticket reopened: " ++ String c reason)
                     (customerId t) false [] (getTime now)) [])
        as [H1 H2]
  end.
  - exact Hnone.
  - cbn [comments set_comments set_resolution set_lastReopenedAt
         set_reopenedCount set_status].
    rewrite filter_app, Hf. reflexivity.
  - rewrite H1, H2.
    cbn [comment_createdAt createdAt isNew stamp set_comments set_resolution
         set_lastReopenedAt set_reopenedCount set_status].
    rewrite Hnew, Hcreated. split; reflexivity.
Qed.

Lemma reopen_comment_is_first_response_witness :
  firstResponseAt
    (snd (reopen Samples.t2h 2 "Still broken"
            (Samples.ticket resolved Samples.resolved_by_admin)))
  = Some 1700007200000
  /\ responseTime
       (sla (snd (reopen Samples.t2h 2 "Still broken"
                    (Samples.ticket resolved Samples.resolved_by_admin))))
     = Some (elapsed_hours 1700007200000 1700000000000).
Proof.
  apply (reopen_comment_is_first_response Samples.t2h 2 "Still broken"
           (Samples.ticket resolved Samples.resolved_by_admin) 1700000000000).
  - reflexivity.
  - reflexivity.
  - left. reflexivity.
  - discriminate.
  - reflexivity.
  - reflexivity.
Defined.


(** The store around the hook, on two more paths. *)
Lemma closedAt_written t : closedAt (written t) = closedAt t.
Proof. reflexivity. Qed.

Lemma ticketNumber_written t : ticketNumber (written t) = ticketNumber t.
Proof. reflexivity. Qed.

Lemma ticketNumber_stamp n t : ticketNumber (stamp n t) = ticketNumber t.
Proof. reflexivity. Qed.

(** *** The closure date *)

(** The hook, read on the closure date. *)
Lemma closedAt_pre_save now count t :
  closedAt (pre_save now count t)
  = if Status_eqb (status t) closed && negb (is_set (closedAt t))
    then Some (getTime now)
    else closedAt t.
Proof.
  unfold pre_save. cbv zeta.
  frame (frame_check_sla_breach now _ closedAt).
  set (y := track_resolution now
              (track_first_response
                 (set_sla_deadlines now (generate_ticket_number now count t)))).
  assert (Hst : status y = status t).
  { subst y.
    frame (frame_track_resolution now _ status).
    frame (frame_track_first_response _ status).
    frame (frame_set_sla_deadlines now _ status).
    frame (frame_generate_ticket_number now count _ status). reflexivity. }
  assert (Hcl : closedAt y = closedAt t).
  { subst y.
    frame (frame_track_resolution now _ closedAt).
    frame (frame_track_first_response _ closedAt).
    frame (frame_set_sla_deadlines now _ closedAt).
    frame (frame_generate_ticket_number now count _ closedAt). reflexivity. }
  unfold track_closure. rewrite Hst, Hcl.
  destruct (Status_eqb (status t) closed && negb (is_set (closedAt t)));
    [reflexivity | exact Hcl].
Qed.

Lemma closedAt_save now count t :
  closedAt (snd (save now count t))
  = if Status_eqb (status t) closed && negb (is_set (closedAt t))
    then Some (getTime now)
    else closedAt t.
Proof.
  rewrite save_eq. unfold snd.
  rewrite closedAt_written, closedAt_pre_save. reflexivity.
Qed.

(** X5.  [closedAt] is assigned once: a save of a closed ticket that has no
    closure date dates the closure at that save, a save of a ticket that is
    not closed leaves it without date, and a closure date that is set
    survives every history of calls; [reopen] does not clear it, so a ticket
    closed a second time keeps the date of its first closure. *)
Theorem closedAt_set_once now count t :
  (closedAt t = None -> status t = closed ->
   closedAt (snd (save now count t)) = Some (getTime now))
  /\ (closedAt t = None -> status t <> closed ->
      closedAt (snd (save now count t)) = None)
  /\ (forall c h, closedAt t = Some c -> closedAt (calls h t) = Some c).
Proof.
  split; [| split].
  - intros Hn Hs. rewrite closedAt_save, Hn, Hs. reflexivity.
  - intros Hn Hs. apply ticket_Status_eqb_neq in Hs.
    rewrite closedAt_save, Hs. exact Hn.
  - intros c h Hc.
    apply (calls_invariant (fun x => closedAt x = Some c));
      try (intros v x H; exact H); [| exact Hc].
    intros now' count' x H. rewrite closedAt_save, H.
    rewrite andb_false_r. reflexivity.
Qed.

Lemma closedAt_set_once_witness :
  closedAt (snd (save Samples.t2h 2 (Samples.ticket closed no_resolution)))
  = Some 1700007200000
  /\ closedAt (snd (save Samples.t2h 2 (Samples.ticket open no_resolution)))
     = None
  /\ closedAt
       (calls [(Samples.t2h, 2, CallReopen "Still broken");
               (Samples.t2h, 2, CallAssignToAgent (Id 7))]
          (set_closedAt (Some 1700000003000)
             (Samples.ticket closed no_resolution)))
     = Some 1700000003000.
Proof.
  destruct (closedAt_set_once Samples.t2h 2
              (Samples.ticket closed no_resolution)) as (Hset & _ & _).
  destruct (closedAt_set_once Samples.t2h 2
              (Samples.ticket open no_resolution)) as (_ & Hnot & _).
  destruct (closedAt_set_once Samples.t2h 2
              (set_closedAt (Some 1700000003000)
                 (Samples.ticket closed no_resolution))) as (_ & _ & Hkept).
  split; [| split].
  - apply Hset; reflexivity.
  - apply Hnot; [reflexivity | simpl; discriminate].
  - apply Hkept. reflexivity.
Defined.

(** *** The ticket number *)

Lemma ticketNumber_save now count t :
  isNew t = false \/ truthy (ticketNumber t) = true ->
  ticketNumber (snd (save now count t)) = ticketNumber t.
Proof.
  intros H. rewrite save_eq. unfold snd.
  rewrite ticketNumber_written. unfold pre_save. cbv zeta.
  frame (frame_check_sla_breach now _ ticketNumber).
  frame (frame_track_closure now _ ticketNumber).
  frame (frame_track_resolution now _ ticketNumber).
  frame (frame_track_first_response _ ticketNumber).
  frame (frame_set_sla_deadlines now _ ticketNumber).
  unfold generate_ticket_number.
  replace (isNew (stamp (getTime now) t)
           && negb (truthy (ticketNumber (stamp (getTime now) t))))
    with false; [reflexivity |].
  rewrite isNew_stamp, ticketNumber_stamp.
  destruct H as [H | H]; rewrite H; [reflexivity |].
  symmetry. apply andb_false_r.
Qed.

(** X6.  The number of a stored ticket, and the number a new ticket was given
    when it was built, is never assigned again: it is the same after every
    history of calls. *)
Theorem ticketNumber_is_kept h t :
  isNew t = false \/ truthy (ticketNumber t) = true ->
  ticketNumber (calls h t) = ticketNumber t.
Proof.
  intros H.
  apply (calls_invariant
           (fun x => (isNew x = false \/ truthy (ticketNumber x) = true)
                     /\ ticketNumber x = ticketNumber t));
    try (intros v x Hx; exact Hx).
  - intros now count x [Hx Hn]. split.
    + left. rewrite save_eq. reflexivity.
    + rewrite ticketNumber_save by exact Hx. exact Hn.
  - split; [exact H | reflexivity].
Qed.

Lemma ticketNumber_is_kept_witness :
  ticketNumber
    (calls [(Samples.t2h, 2, CallAddComment "Any news?" (Id 11) false []);
            (Samples.t2h, 2, CallResolve "Cache cleared" (Id 7))]
       (new_document 11 (Some "temp") technical None
          "Unable to view project images" "The images are not loading."
          urgent))
  = Some "temp".
Proof.
  apply (ticketNumber_is_kept
           [(Samples.t2h, 2, CallAddComment "Any news?" (Id 11) false []);
            (Samples.t2h, 2, CallResolve "Cache cleared" (Id 7))]
           (new_document 11 (Some "temp") technical None
              "Unable to view project images" "The images are not loading."
              urgent)).
  right. reflexivity.
Defined.

(** *** The breach flag against the deadlines *)

(** The last block flags what the virtuals call overdue. *)
Lemma overdue_is_flagged_by_check now y :
  isResponseOverdue (getTime now) (written (check_sla_breach now y)) = true
  \/ isResolutionOverdue (getTime now) (written (check_sla_breach now y)) = true ->
  breached (sla (written (check_sla_breach now y))) = true.
Proof.
  destruct y as [? ? ? ? ? ? ? st ? ? ? ? ? [? ? br rd sd] fr ? ? ? ? ? ?].
  unfold isResponseOverdue, isResolutionOverdue, check_sla_breach.
  generalize (getTime now). intros n.
  destruct fr as [fr |], rd as [rd |], sd as [sd |], st;
    try destruct (rd <? n)%Z eqn:Er; try destruct (sd <? n)%Z eqn:Es;
    cbn -[Z.ltb]; rewrite ?Er, ?Es; cbn -[Z.ltb]; rewrite ?Er, ?Es;
    cbn -[Z.ltb];
    intros [H | H]; rewrite ?Er, ?Es in *; congruence.
Qed.

Lemma overdue_is_flagged_by_save now count t :
  isResponseOverdue (getTime now) (snd (save now count t)) = true
  \/ isResolutionOverdue (getTime now) (snd (save now count t)) = true ->
  breached (sla (snd (save now count t))) = true.
Proof.
  rewrite save_eq. unfold snd, pre_save. cbv zeta.
  apply overdue_is_flagged_by_check.
Qed.

(** X7.  The flag agrees with the virtuals at the time of a save: after every
    call that saved the ticket, a ticket that [isResponseOverdue] or
    [isResolutionOverdue] report overdue, read at the time of the call, has
    [sla.breached] set. *)
Theorem overdue_ticket_is_flagged now count c t :
  fst (call now count c t) = Fulfilled ->
  isResponseOverdue (getTime now) (snd (call now count c t)) = true
  \/ isResolutionOverdue (getTime now) (snd (call now count c t)) = true ->
  breached (sla (snd (call now count c t))) = true.
Proof.
  apply (call_rule now count (fun _ => True)
           (fun r =>
              fst r = Fulfilled ->
              isResponseOverdue (getTime now) (snd r) = true
              \/ isResolutionOverdue (getTime now) (snd r) = true ->
              breached (sla (snd r)) = true));
    auto.
  - intros x _ _. apply overdue_is_flagged_by_save.
  - intros reason x _ H. discriminate H.
Qed.

Lemma overdue_ticket_is_flagged_witness :
  isResponseOverdue 1700020000000
    (snd (call (mkClock 1700020000000 2023 10) 2 (CallAssignToAgent (Id 7))
            (Samples.ticket open no_resolution))) = true
  /\ breached
       (sla (snd (call (mkClock 1700020000000 2023 10) 2
                    (CallAssignToAgent (Id 7))
                    (Samples.ticket open no_resolution)))) = true.
Proof.
  assert (H : isResponseOverdue 1700020000000
                (snd (call (mkClock 1700020000000 2023 10) 2
                        (CallAssignToAgent (Id 7))
                        (Samples.ticket open no_resolution))) = true)
    by reflexivity.
  split; [exact H |].
  apply (overdue_ticket_is_flagged (mkClock 1700020000000 2023 10) 2
           (CallAssignToAgent (Id 7)) (Samples.ticket open no_resolution)).
  - reflexivity.
  - left. exact H.
Defined.

(** The last block does nothing while neither deadline is past. *)
Lemma check_sla_breach_quiet now y :
  past (getTime now) (responseDeadline (sla y)) = false ->
  past (getTime now) (resolutionDeadline (sla y)) = false ->
  check_sla_breach now y = y.
Proof.
  intros H1 H2. unfold check_sla_breach. cbv zeta. rewrite H1. cbn [andb].
  rewrite H2. reflexivity.
Qed.

Lemma save_before_deadlines now count t :
  isNew t = false ->
  past (getTime now) (responseDeadline (sla t)) = false ->
  past (getTime now) (resolutionDeadline (sla t)) = false ->
  breached (sla (snd (save now count t))) = breached (sla t).
Proof.
  intros Hnew H1 H2. rewrite save_eq. unfold snd. rewrite sla_written.
  unfold pre_save. cbv zeta.
  set (y := track_closure now
              (track_resolution now
                 (track_first_response
                    (set_sla_deadlines now
                       (generate_ticket_number now count
                          (stamp (getTime now) t)))))).
  assert (Hd : (responseDeadline (sla y), resolutionDeadline (sla y))
               = (responseDeadline (sla t), resolutionDeadline (sla t))).
  { subst y.
    frame (frame_track_closure now _
             (fun t => (responseDeadline (sla t), resolutionDeadline (sla t)))).
    frame (frame_track_resolution now _
             (fun t => (responseDeadline (sla t), resolutionDeadline (sla t)))).
    frame (frame_track_first_response _
             (fun t => (responseDeadline (sla t), resolutionDeadline (sla t)))).
    unfold set_sla_deadlines.
    frame (frame_generate_ticket_number now count _ isNew).
    rewrite isNew_stamp, Hnew.
    frame (frame_generate_ticket_number now count _
             (fun t => (responseDeadline (sla t), resolutionDeadline (sla t)))).
    rewrite sla_stamp. reflexivity. }
  assert (Hb : breached (sla y) = breached (sla t)).
  { subst y.
    frame (frame_track_closure now _ (fun t => breached (sla t))).
    frame (frame_track_resolution now _ (fun t => breached (sla t))).
    frame (frame_track_first_response _ (fun t => breached (sla t))).
    frame (frame_set_sla_deadlines now _ (fun t => breached (sla t))).
    frame (frame_generate_ticket_number now count _
             (fun t => breached (sla t))).
    rewrite sla_stamp. reflexivity. }
  injection Hd as Hd1 Hd2.
  rewrite check_sla_breach_quiet by (rewrite ?Hd1, ?Hd2; assumption).
  exact Hb.
Qed.

(** X8.  No false alarm: a call on a stored ticket whose flag is not set, at
    a time that is past neither of its deadlines, leaves the flag unset. *)
Theorem no_breach_before_deadlines now count c t :
  isNew t = false ->
  breached (sla t) = false ->
  (forall d, responseDeadline (sla t) = Some d -> getTime now <= d) ->
  (forall d, resolutionDeadline (sla t) = Some d -> getTime now <= d) ->
  breached (sla (snd (call now count c t))) = false.
Proof.
  intros Hnew Hb H1 H2.
  assert (Hp1 : past (getTime now) (responseDeadline (sla t)) = false).
  { destruct (responseDeadline (sla t)) as [d |]; [| reflexivity].
    apply Z.ltb_ge, H1. reflexivity. }
  assert (Hp2 : past (getTime now) (resolutionDeadline (sla t)) = false).
  { destruct (resolutionDeadline (sla t)) as [d |]; [| reflexivity].
    apply Z.ltb_ge, H2. reflexivity. }
  apply (call_rule now count
           (fun x => isNew x = false /\ sla x = sla t)
           (fun r => breached (sla (snd r)) = false));
    try (intros v x Hx; exact Hx).
  - intros x [Hx Hs].
    rewrite save_before_deadlines; rewrite ?Hs; assumption.
  - intros reason x [_ Hs]. cbn [snd]. rewrite Hs. exact Hb.
  - split; [exact Hnew | reflexivity].
Qed.

Lemma no_breach_before_deadlines_witness :
  breached
    (sla (snd (call Samples.t2h 2 (CallAddComment "Any news?" (Id 11) false [])
                 (Samples.ticket open no_resolution)))) = false.
Proof.
  apply (no_breach_before_deadlines Samples.t2h 2
           (CallAddComment "Any news?" (Id 11) false [])
           (Samples.ticket open no_resolution)).
  - reflexivity.
  - reflexivity.
  - intros d H. injection H as <-. simpl. lia.
  - intros d H. injection H as <-. simpl. lia.
Defined.

(** *** Ages in days *)

(** [Math.ceil] of a quotient by a positive factor: the least number of
    factors that cover the dividend. *)
Lemma ceil_quotient_bracket a b :
  0 < b -> b * (ceil_quotient a b - 1) < a <= b * ceil_quotient a b.
Proof.
  intros Hb. unfold ceil_quotient.
  pose proof (Z.div_mod (- a) b) as Hdiv.
  pose proof (Z.mod_pos_bound (- a) b Hb) as Hmod.
  specialize (Hdiv ltac:(lia)). nia.
Qed.

(** X9.  [ageInDays] counts started days: for a ticket with a creation date
    and for a paid payment it is the least number of days of 24 hours that
    cover the time between that date and the reading, in either direction;
    it is 0 only at the very millisecond of the date, and 1 from the next
    one.  A payment that was not paid has the age [null]. *)
Theorem ageInDays_counts_started_days now :
  (forall t created,
      createdAt t = Some created ->
      exists n,
        ageInDays now t = Some n
        /\ ms_per_day * (n - 1) < Z.abs (now - created) <= ms_per_day * n
        /\ (n = 0 <-> now = created))
  /\ (forall p, Payment.paidAt p = None -> Payment.ageInDays now p = None)
  /\ (forall p paid,
         Payment.paidAt p = Some paid ->
         exists n,
           Payment.ageInDays now p = Some n
           /\ ms_per_day * (n - 1) < Z.abs (now - paid) <= ms_per_day * n
           /\ (n = 0 <-> now = paid)).
Proof.
  assert (Hday : 0 < ms_per_day) by reflexivity.
  assert (Hceil : forall d,
             ms_per_day * (ceil_quotient (Z.abs d) ms_per_day - 1) < Z.abs d
             <= ms_per_day * ceil_quotient (Z.abs d) ms_per_day
             /\ (ceil_quotient (Z.abs d) ms_per_day = 0 <-> d = 0)).
  { intros d.
    pose proof (ceil_quotient_bracket (Z.abs d) ms_per_day Hday) as H.
    split; [exact H |].
    generalize dependent (ceil_quotient (Z.abs d) ms_per_day).
    intros n H. split; intros; nia. }
  split; [| split].
  - intros t created Hc. unfold ageInDays. rewrite Hc. cbv zeta.
    eexists. split; [reflexivity |].
    destruct (Hceil (now - created)) as [H1 H2].
    split; [exact H1 |]. rewrite H2. lia.
  - intros p Hp. unfold Payment.ageInDays. rewrite Hp. reflexivity.
  - intros p paid Hp. unfold Payment.ageInDays. rewrite Hp. cbv zeta.
    eexists. split; [reflexivity |].
    destruct (Hceil (now - paid)) as [H1 H2].
    split; [exact H1 |]. rewrite H2. lia.
Qed.

Lemma ageInDays_counts_started_days_witness :
  ageInDays 1700000000001 (Samples.ticket open no_resolution) = Some 1
  /\ ageInDays 1700086400001 (Samples.ticket open no_resolution) = Some 2.
Proof.
  destruct (ageInDays_counts_started_days 1700000000001) as [H1 _].
  destruct (ageInDays_counts_started_days 1700086400001) as [H2 _].
  destruct (H1 (Samples.ticket open no_resolution) 1700000000000 eq_refl)
    as (n1 & E1 & B1 & _).
  destruct (H2 (Samples.ticket open no_resolution) 1700000000000 eq_refl)
    as (n2 & E2 & B2 & _).
  rewrite E1, E2. unfold ms_per_day in B1, B2.
  split; f_equal; lia.
Defined.

(** *** Statistics *)

Lemma sum_app (l1 l2 : list Z) :
  fold_right Z.add 0 (l1 ++ l2)
  = fold_right Z.add 0 l1 + fold_right Z.add 0 l2.
Proof. induction l1 as [| a l1 IH]; cbn [app fold_right]; lia. Qed.

(** The five statuses split a list of tickets. *)
Lemma status_partition docs :
  Z.of_nat (List.length (filter (fun d => Status_eqb (status d) open) docs))
  + Z.of_nat (List.length (filter (fun d => Status_eqb (status d) in_review)
                             docs))
  + Z.of_nat (List.length (filter (fun d => Status_eqb (status d)
                                              pending_customer) docs))
  + Z.of_nat (List.length (filter (fun d => Status_eqb (status d) resolved)
                             docs))
  + Z.of_nat (List.length (filter (fun d => Status_eqb (status d) closed) docs))
  = Z.of_nat (List.length docs).
Proof.
  induction docs as [| d docs IH]; [reflexivity |].
  cbn [filter]. destruct (status d); cbn [Status_eqb List.length]; lia.
Qed.

Lemma priority_partition docs :
  Z.of_nat (List.length (filter (fun d => Priority_eqb (priority d) low) docs))
  + Z.of_nat (List.length (filter (fun d => Priority_eqb (priority d) medium)
                             docs))
  + Z.of_nat (List.length (filter (fun d => Priority_eqb (priority d) high)
                             docs))
  + Z.of_nat (List.length (filter (fun d => Priority_eqb (priority d) urgent)
                             docs))
  = Z.of_nat (List.length docs).
Proof.
  induction docs as [| d docs IH]; [reflexivity |].
  cbn [filter]. destruct (priority d); cbn [Priority_eqb List.length]; lia.
Qed.

Lemma type_partition docs :
  Z.of_nat (List.length (filter (fun d => TicketType_eqb (ticketType d)
                                              feedback) docs))
  + Z.of_nat (List.length (filter (fun d => TicketType_eqb (ticketType d)
                                                grievance) docs))
  + Z.of_nat (List.length (filter (fun d => TicketType_eqb (ticketType d)
                                                suggestion) docs))
  + Z.of_nat (List.length (filter (fun d => TicketType_eqb (ticketType d)
                                                technical) docs))
  + Z.of_nat (List.length (filter (fun d => TicketType_eqb (ticketType d)
                                                billing) docs))
  = Z.of_nat (List.length docs).
Proof.
  induction docs as [| d docs IH]; [reflexivity |].
  cbn [filter]. destruct (ticketType d); cbn [TicketType_eqb List.length]; lia.
Qed.

(** A group is emitted for the values of the key that occur; its count is
    the number of documents with that value. *)
Ltac group_counts :=
  repeat rewrite map_app; repeat rewrite sum_app;
  repeat match goal with
  | |- context [match filter ?f ?l with _ => _ end] =>
      destruct (filter f l);
      cbn [map fold_right List.length status_count priority_count type_count
           breachedCount]
  end.

(** X10.  The groups of [getStatistics] split the tickets that match the
    filter: the counts by status, the counts by priority and the counts by
    type each add up to the number of matching tickets. *)
Theorem getStatistics_counts filter_ collection :
  fold_right Z.add 0
    (map status_count (byStatus (getStatistics filter_ collection)))
  = Z.of_nat (List.length (filter filter_ collection))
  /\ fold_right Z.add 0
       (map priority_count (byPriority (getStatistics filter_ collection)))
     = Z.of_nat (List.length (filter filter_ collection))
  /\ fold_right Z.add 0
       (map type_count (byType (getStatistics filter_ collection)))
     = Z.of_nat (List.length (filter filter_ collection)).
Proof.
  unfold getStatistics. cbv zeta. cbn [byStatus byPriority byType].
  generalize (filter filter_ collection). intros docs.
  split; [| split].
  - rewrite <- (status_partition docs).
    unfold group_by_status. cbn [flat_map]. group_counts; lia.
  - rewrite <- (priority_partition docs).
    unfold group_by_priority. cbn [flat_map]. group_counts; lia.
  - rewrite <- (type_partition docs).
    unfold group_by_type. cbn [flat_map]. group_counts; lia.
Qed.

(** [$sum] of the breach flags counts the flagged tickets. *)
Lemma sum_breached_count docs :
  sum_breached docs
  = Z.of_nat (List.length (filter (fun d => breached (sla d)) docs)).
Proof.
  induction docs as [| d docs IH]; [reflexivity |].
  unfold sum_breached in *. cbn [fold_right filter]. rewrite IH.
  destruct (breached (sla d)); cbn [List.length]; lia.
Qed.

Lemma sum_breached_bounds docs :
  0 <= sum_breached docs <= Z.of_nat (List.length docs).
Proof.
  induction docs as [| d docs IH]; [cbn; lia |].
  unfold sum_breached in *. cbn [fold_right List.length].
  destruct (breached (sla d)); lia.
Qed.

Lemma breached_partition docs :
  sum_breached (filter (fun d => Status_eqb (status d) open) docs)
  + sum_breached (filter (fun d => Status_eqb (status d) in_review) docs)
  + sum_breached (filter (fun d => Status_eqb (status d) pending_customer) docs)
  + sum_breached (filter (fun d => Status_eqb (status d) resolved) docs)
  + sum_breached (filter (fun d => Status_eqb (status d) closed) docs)
  = sum_breached docs.
Proof.
  induction docs as [| d docs IH]; [reflexivity |].
  cbn [filter]. unfold sum_breached in *.
  destruct (status d); cbn [Status_eqb fold_right]; lia.
Qed.

Lemma filter_and_breached filter_ (collection : list Document) :
  filter (fun d => breached (sla d)) (filter filter_ collection)
  = filter (fun d => filter_ d && breached (sla d)) collection.
Proof.
  induction collection as [| d l IH]; [reflexivity |].
  cbn [filter]. destruct (filter_ d); cbn [filter andb]; rewrite IH;
    reflexivity.
Qed.

(** X11.  In the statistics by status, the breached counts add up to the
    number of matching tickets whose flag is set; every group that is
    listed has at least one ticket, and no more breached tickets than
    tickets. *)
Theorem getStatistics_breached filter_ collection :
  fold_right Z.add 0
    (map breachedCount (byStatus (getStatistics filter_ collection)))
  = Z.of_nat
      (List.length
         (filter (fun d => filter_ d && breached (sla d)) collection))
  /\ Forall
       (fun g =>
          1 <= status_count g /\ 0 <= breachedCount g <= status_count g)
       (byStatus (getStatistics filter_ collection)).
Proof.
  unfold getStatistics. cbv zeta. cbn [byStatus].
  rewrite <- filter_and_breached, <- sum_breached_count.
  generalize (filter filter_ collection). intros docs. split.
  - rewrite <- (breached_partition docs).
    unfold group_by_status. cbn [flat_map]. group_counts;
      change (sum_breached []) with 0; lia.
  - unfold group_by_status. cbn [flat_map].
    repeat (apply Forall_app; split); try apply Forall_nil;
      match goal with
      | |- context [match filter ?f ?l with _ => _ end] =>
          destruct (filter f l) as [| d g]
      end;
      constructor; try apply Forall_nil;
      cbn [status_count breachedCount];
      pose proof (sum_breached_bounds (d :: g)) as Hb;
      cbn [List.length] in *; lia.
Qed.

(** *** What the methods never do *)

(** X24.  No method closes a ticket or sets it pending on the customer: after
    a call the status is what it was, or in_review after [assignToAgent],
    resolved after [resolve], open after a [reopen] from resolved or
    closed. *)
Theorem status_after_call now count c t :
  status (snd (call now count c t))
  = match c with
    | CallAssignToAgent _ => in_review
    | CallResolve _ _ => resolved
    | CallReopen _ =>
        if Status_eqb (status t) closed || Status_eqb (status t) resolved
        then open
        else status t
    | _ => status t
    end.
Proof.
  destruct c as [| text_ authorId isInternal_ attachments_ | agentId
                 | resolutionText resolvedById | reason | score_ feedback_];
    cbn [call].
  - apply status_save.
  - unfold addComment. cbv zeta. rewrite status_save. reflexivity.
  - unfold assignToAgent. cbv zeta. rewrite status_save. reflexivity.
  - unfold resolve. cbv zeta. rewrite status_save. reflexivity.
  - unfold reopen. rewrite status_save.
    destruct (Status_eqb (status t) closed || Status_eqb (status t) resolved);
      [destruct (truthy (Some reason)) |]; reflexivity.
  - unfold addRating.
    destruct (negb (Status_eqb (status t) resolved)
              && negb (Status_eqb (status t) closed)); [reflexivity |].
    cbv zeta. rewrite status_save. reflexivity.
Qed.

(** X25.  The rating is assigned by [addRating] alone: every other call
    leaves it, [reopen] too, so a reopened ticket carries the rating of its
    earlier resolution. *)
Theorem rating_moves_only_on_addRating now count c t :
  (forall score_ feedback_, c <> CallAddRating score_ feedback_) ->
  rating (snd (call now count c t)) = rating t.
Proof.
  intros Hc.
  destruct c as [| text_ authorId isInternal_ attachments_ | agentId
                 | resolutionText resolvedById | reason | score_ feedback_];
    cbn [call].
  - apply rating_save.
  - unfold addComment. cbv zeta. rewrite rating_save. reflexivity.
  - unfold assignToAgent. cbv zeta. rewrite rating_save. reflexivity.
  - unfold resolve. cbv zeta. rewrite rating_save. reflexivity.
  - unfold reopen. rewrite rating_save.
    destruct (Status_eqb (status t) closed || Status_eqb (status t) resolved);
      [destruct (truthy (Some reason)) |]; reflexivity.
  - exfalso. apply (Hc score_ feedback_). reflexivity.
Qed.

Lemma rating_moves_only_on_addRating_witness :
  rating
    (snd (call Samples.t2h 2 (CallReopen "Still broken")
            (set_rating (mkRating (Some 5) None (Some 1700000005000))
               (Samples.ticket resolved Samples.resolved_by_admin))))
  = mkRating (Some 5) None (Some 1700000005000).
Proof.
  apply (rating_moves_only_on_addRating Samples.t2h 2
           (CallReopen "Still broken")
           (set_rating (mkRating (Some 5) None (Some 1700000005000))
              (Samples.ticket resolved Samples.resolved_by_admin))).
  intros score_ feedback_ H. discriminate H.
Defined.

(** X26.  The reopen counter counts the reopenings and nothing else: a call
    adds one to it when it is a [reopen] of a ticket that is resolved or
    closed, and leaves it otherwise; over a history of calls it never goes
    down. *)
Theorem reopenedCount_counts_reopenings now count c t :
  reopenedCount (snd (call now count c t))
  = reopenedCount t
    + match c with
      | CallReopen _ =>
          if Status_eqb (status t) closed || Status_eqb (status t) resolved
          then 1
          else 0
      | _ => 0
      end
  /\ forall h, reopenedCount t <= reopenedCount (calls h t).
Proof.
  assert (Hcall : forall now count c t,
             reopenedCount (snd (call now count c t))
             = reopenedCount t
               + match c with
                 | CallReopen _ =>
                     if Status_eqb (status t) closed
                        || Status_eqb (status t) resolved
                     then 1
                     else 0
                 | _ => 0
                 end).
  { clear. intros now count c t.
    destruct c as [| text_ authorId isInternal_ attachments_ | agentId
                   | resolutionText resolvedById | reason | score_ feedback_];
      cbn [call].
    - rewrite reopenedCount_save. lia.
    - unfold addComment. cbv zeta. rewrite reopenedCount_save.
      cbn [reopenedCount set_comments]. lia.
    - unfold assignToAgent. cbv zeta. rewrite reopenedCount_save.
      cbn [reopenedCount set_status set_assignedTo]. lia.
    - unfold resolve. cbv zeta. rewrite reopenedCount_save.
      cbn [reopenedCount set_resolution set_status]. lia.
    - unfold reopen. rewrite reopenedCount_save.
      destruct (Status_eqb (status t) closed || Status_eqb (status t) resolved);
        [destruct (truthy (Some reason)) |];
        cbn [reopenedCount set_comments set_resolution set_lastReopenedAt
             set_reopenedCount set_status]; lia.
    - unfold addRating.
      destruct (negb (Status_eqb (status t) resolved)
                && negb (Status_eqb (status t) closed)); [cbn [snd]; lia |].
      cbv zeta. rewrite reopenedCount_save.
      cbn [reopenedCount set_rating]. lia. }
  split; [apply Hcall |].
  intros h. revert t.
  induction h as [| [[now' count'] c'] h IH]; intros t; cbn [calls]; [lia |].
  specialize (IH (snd (call now' count' c' t))).
  rewrite Hcall in IH.
  destruct c'; try lia.
  destruct (Status_eqb (status t) closed || Status_eqb (status t) resolved);
    lia.
Qed.

End TicketModel.

(** ** More of the payment model: success, the counter of attempts, repeated
    refunds and the EMI defaulters *)

Module PaymentModel.

Import Payment.
Import PaymentLifecycle.

(** *** Success *)

(** X12.  [updateStatus('success', details)] sets the status to success and
    [paidAt] to the date of the call, keeps a receipt number that is set and
    generates one otherwise; it stores the payment id and the signature of
    the gateway only when they are given, keeping the stored ones otherwise,
    and it leaves the order id, the counter of attempts and the failure
    reason of an earlier failure as they are. *)
Theorem updateStatus_success_outcome date random details p :
  status (snd (updateStatus date random success details p)) = success
  /\ paidAt (snd (updateStatus date random success details p))
     = Some (getTime date)
  /\ receiptNumber (snd (updateStatus date random success details p))
     = (if truthy (receiptNumber p) then receiptNumber p
        else Some ("REC" ++ toString (getFullYear date)
                     ++ padStart (toString (getMonth date + 1)) 2 "0"
                     ++ padStart (toString random) 4 "0"))
  /\ paymentId (gatewayDetails (snd (updateStatus date random success details
                                      p)))
     = (if truthy (details_paymentId details) then details_paymentId details
        else paymentId (gatewayDetails p))
  /\ signature (gatewayDetails (snd (updateStatus date random success details
                                      p)))
     = (if truthy (details_signature details) then details_signature details
        else signature (gatewayDetails p))
  /\ orderId (gatewayDetails (snd (updateStatus date random success details
                                    p)))
     = orderId (gatewayDetails p)
  /\ attempts (snd (updateStatus date random success details p)) = attempts p
  /\ failureReason (snd (updateStatus date random success details p))
     = failureReason p.
Proof.
  unfold updateStatus, save, pre_save, update_attempts_count,
    generate_receipt_number.
  destruct p as [? ? ? ? ? ? [? ? ? ? ?] st rn ? ? ? ? ? ? ? ? ? new modified].
  destruct details as [dp ds dr].
  destruct (truthy rn) eqn:Ern, (truthy dp) eqn:Edp, (truthy ds) eqn:Eds;
    cbn -[toString padStart String.append truthy];
    rewrite ?Ern, ?Edp, ?Eds, ?andb_false_r;
    cbn -[toString padStart String.append truthy];
    rewrite ?Ern, ?Edp, ?Eds, ?andb_false_r;
    cbn -[toString padStart String.append truthy]; repeat split.
Qed.

(** *** The counter of attempts *)

Lemma generate_receipt_number_frame date random p :
  attempts (generate_receipt_number date random p) = attempts p
  /\ statusModified (generate_receipt_number date random p) = statusModified p
  /\ status (generate_receipt_number date random p) = status p.
Proof.
  unfold generate_receipt_number.
  destruct (Status_eqb (status p) success && negb (truthy (receiptNumber p)));
    repeat split.
Qed.

(** One save adds one to the counter when the status is failed and was
    modified since the last save, and nothing otherwise. *)
Lemma attempts_save date random p :
  attempts (snd (save date random p))
  = attempts p
    + (if statusModified p && Status_eqb (status p) failed then 1 else 0).
Proof.
  unfold save, pre_save. cbv zeta. unfold snd.
  change (attempts (written ?x)) with (attempts x).
  destruct (generate_receipt_number_frame date random
              (stamp (getTime date) p)) as (Ha & Hm & Hs).
  unfold update_attempts_count. rewrite Hm, Hs.
  change (statusModified (stamp (getTime date) p)) with (statusModified p).
  change (status (stamp (getTime date) p)) with (status p).
  destruct (statusModified p && Status_eqb (status p) failed).
  - cbn [attempts set_attempts]. rewrite Ha. reflexivity.
  - rewrite Ha. cbn [attempts stamp]. lia.
Qed.

Lemma stored_save date random p :
  isNew (snd (save date random p)) = false
  /\ statusModified (snd (save date random p)) = false.
Proof. split; reflexivity. Qed.

(** What a call does to the counter, and that it leaves a stored payment. *)
Lemma attempts_call date random c p :
  isNew p = false -> statusModified p = false ->
  isNew (snd (call date random c p)) = false
  /\ statusModified (snd (call date random c p)) = false
  /\ attempts (snd (call date random c p))
     = attempts p
       + match c with
         | CallUpdateStatus failed _ =>
             if Status_eqb failed (status p) then 1 else 2
         | _ => 0
         end.
Proof.
  intros Hnew Hmod.
  destruct c as [| v | amount_ reason | status_ details]; cbn [call].
  - rewrite attempts_save, Hmod. cbn [andb].
    split; [reflexivity | split; [reflexivity | lia]].
  - rewrite attempts_save. cbn [statusModified set_invoice]. rewrite Hmod.
    cbn [attempts set_invoice andb].
    split; [reflexivity | split; [reflexivity | lia]].
  - unfold initiateRefund.
    destruct (negb (Status_eqb (status p) success));
      [cbn [snd]; repeat split; auto; lia |].
    destruct (amount p <? amount_)%Z; [cbn [snd]; repeat split; auto; lia |].
    rewrite attempts_save. cbn [statusModified set_refundDetails]. rewrite Hmod.
    cbn [attempts set_refundDetails andb].
    split; [reflexivity | split; [reflexivity | lia]].
  - unfold updateStatus. cbv zeta.
    split; [reflexivity | split; [reflexivity |]].
    rewrite attempts_save.
    destruct status_;
      repeat match goal with
      | |- context [if truthy ?x then _ else _] => destruct (truthy x)
      end;
      cbn [statusModified status attempts set_status set_paidAt
           set_gateway_paymentId set_gateway_signature set_gatewayDetails
           set_failureReason set_attempts Status_eqb];
      rewrite ?Hnew, ?Hmod; rewrite ?andb_false_r; cbn [orb];
      try lia.
    all: destruct (status p); cbn [negb andb]; lia.
Qed.

(** X13.  On a stored payment the counter of attempts never goes down, and
    only [updateStatus('failed', ...)] moves it: it adds two when the status
    was not failed, one when it was; a plain save, a refund and every other
    status update leave the counter as it is. *)
Theorem attempts_move_only_on_failure date random c p :
  isNew p = false -> statusModified p = false ->
  attempts p <= attempts (snd (call date random c p))
  /\ ((forall details, c <> CallUpdateStatus failed details) ->
      attempts (snd (call date random c p)) = attempts p)
  /\ (forall details,
         c = CallUpdateStatus failed details ->
         attempts (snd (call date random c p))
         = attempts p + (if Status_eqb failed (status p) then 1 else 2)).
Proof.
  intros Hnew Hmod.
  destruct (attempts_call date random c p Hnew Hmod) as (_ & _ & Ha).
  rewrite Ha. split; [| split].
  - destruct c as [| | | [] ?]; try lia.
    destruct (Status_eqb failed (status p)); lia.
  - intros Hc. destruct c as [| | | [] d]; try lia.
    exfalso. apply (Hc d). reflexivity.
  - intros details Hc. subst c. reflexivity.
Qed.

Lemma attempts_move_only_on_failure_witness :
  attempts (snd (call Samples.t0 4821 (CallUpdateStatus processing no_details)
                   (Samples.payment pending))) = 0
  /\ attempts (snd (call Samples.t0 4821 (CallUpdateStatus failed no_details)
                      (Samples.payment failed))) = 0 + 1.
Proof.
  destruct (attempts_move_only_on_failure Samples.t0 4821
              (CallUpdateStatus processing no_details)
              (Samples.payment pending) eq_refl eq_refl) as (_ & Hkeep & _).
  destruct (attempts_move_only_on_failure Samples.t0 4821
              (CallUpdateStatus failed no_details)
              (Samples.payment failed) eq_refl eq_refl) as (_ & _ & Hfail).
  split.
  - apply Hkeep. intros details H. discriminate H.
  - apply (Hfail no_details). reflexivity.
Defined.

(** *** Repeated refunds *)

(** X14.  A refund leaves the status at success and keeps no account of
    earlier refunds: after a first refund a second one is accepted under the
    same test against the amount of the payment alone, and its record
    replaces the first, so two refunds of the full amount both succeed. *)
Theorem refund_can_be_repeated
  date1 random1 amount1 reason1 date2 random2 amount2 reason2 p :
  status p = success ->
  amount1 <= amount p -> amount2 <= amount p ->
  fst (initiateRefund date2 random2 amount2 reason2
         (snd (initiateRefund date1 random1 amount1 reason1 p))) = Fulfilled
  /\ refundDetails
       (snd (initiateRefund date2 random2 amount2 reason2
               (snd (initiateRefund date1 random1 amount1 reason1 p))))
     = mkRefund (Some amount2) (Some reason2) (Some (getTime date2)) None
         (Some initiated)
  /\ status
       (snd (initiateRefund date2 random2 amount2 reason2
               (snd (initiateRefund date1 random1 amount1 reason1 p))))
     = success.
Proof.
  intros Hs H1 H2.
  assert (Hrefund : forall date random amount_ reason q,
             status q = success -> amount_ <= amount q ->
             initiateRefund date random amount_ reason q
             = save date random
                 (set_refundDetails
                    (mkRefund (Some amount_) (Some reason)
                       (Some (getTime date)) None (Some initiated)) q)).
  { intros date random amount_ reason q Hq Ha. unfold initiateRefund.
    rewrite Hq. cbn [Status_eqb negb].
    apply Z.ltb_ge in Ha. rewrite Ha. reflexivity. }
  assert (Hframe : forall date random q,
             status (snd (save date random q)) = status q
             /\ amount (snd (save date random q)) = amount q
             /\ refundDetails (snd (save date random q)) = refundDetails q).
  { intros date random q. split; [apply payment_status_save |].
    unfold save, pre_save, update_attempts_count, generate_receipt_number.
    cbn [snd].
    repeat match goal with
    | |- context [if ?b then _ else _] => destruct b
    end; split; reflexivity. }
  rewrite (Hrefund date1 random1 amount1 reason1 p Hs H1).
  match goal with
  | |- context [snd (save date1 random1 ?x)] =>
      destruct (Hframe date1 random1 x) as (Hs1 & Ha1 & _)
  end.
  rewrite Hrefund.
  - match goal with
    | |- context [save date2 random2 ?y] =>
        destruct (Hframe date2 random2 y) as (Hs2 & _ & Hr2)
    end.
    rewrite Hs2, Hr2. cbn [status refundDetails set_refundDetails].
    rewrite Hs1. cbn [status set_refundDetails]. auto.
  - rewrite Hs1. exact Hs.
  - rewrite Ha1. exact H2.
Qed.

Lemma refund_can_be_repeated_witness :
  fst (initiateRefund Samples.t2h 1 100000 "Again"
         (snd (initiateRefund Samples.t0 4821 100000 "Booking cancelled"
                 (Samples.payment success)))) = Fulfilled
  /\ refundDetails
       (snd (initiateRefund Samples.t2h 1 100000 "Again"
               (snd (initiateRefund Samples.t0 4821 100000 "Booking cancelled"
                       (Samples.payment success)))))
     = mkRefund (Some 100000) (Some "Again") (Some 1700007200000) None
         (Some initiated)
  /\ status
       (snd (initiateRefund Samples.t2h 1 100000 "Again"
               (snd (initiateRefund Samples.t0 4821 100000 "Booking cancelled"
                       (Samples.payment success)))))
     = success.
Proof.
  apply (refund_can_be_repeated Samples.t0 4821 100000 "Booking cancelled"
           Samples.t2h 1 100000 "Again" (Samples.payment success)).
  - reflexivity.
  - simpl. lia.
  - simpl. lia.
Defined.

(** *** EMI defaulters *)





End PaymentModel.

(** ** Properties of the routes of the support requests *)

Module SupportRoutesProperties.

Import Auth.
Import SupportRequest.
Import SupportRoutes.
Import TicketLifecycle.
Import TicketModel.

(** *** Creation *)






(** *** What a customer can do to a ticket *)

(** X17.  Through PUT /requests/:id a requester who is not an admin can only
    reopen: the stored ticket is what it was, unless the requester is the
    owner, the body asks for the status open and the ticket is resolved or
    closed, and then it is the ticket reopened with the reason "Customer
    reopened the ticket".  The update of the store behind the admin branch is
    never run for such a requester, whatever it does, and a requester who is
    not the owner is answered 403. *)
Theorem put_request_customer_can_only_reopen
  now count findByIdAndUpdate user body ticket :
  isAdmin user = false ->
  (snd (put_request now count findByIdAndUpdate user body (Some ticket))
   = Some ticket
   \/ (isOwner ticket user = true
       /\ update_status body = Some open
       /\ (status ticket = resolved \/ status ticket = closed)
       /\ put_request now count findByIdAndUpdate user body (Some ticket)
          = (mkResponse 200 None (Some "Ticket reopened successfully"),
             Some (snd (reopen now count "Customer reopened the ticket"
                          ticket)))))
  /\ (isOwner ticket user = false ->
      put_request now count findByIdAndUpdate user body (Some ticket)
      = (mkResponse 403 (Some "Access denied") None, Some ticket)).
Proof.
  intros Hadmin. unfold put_request. rewrite Hadmin. cbn [negb].
  split.
  - destruct (isOwner ticket user); cbn [negb andb]; [| left; reflexivity].
    destruct (update_status body) as [[] |]; cbn [andb snd];
      try (left; reflexivity).
    destruct (Status_eqb (status ticket) resolved) eqn:Hr.
    + right. apply ticket_Status_eqb_eq in Hr. cbn [orb]. auto.
    + cbn [orb]. destruct (Status_eqb (status ticket) closed) eqn:Hc.
      * right. apply ticket_Status_eqb_eq in Hc. auto.
      * left. reflexivity.
  - intros Ho. rewrite Ho. reflexivity.
Qed.

Lemma put_request_customer_can_only_reopen_witness :
  put_request Samples.t2h 2 (fun _ t => set_status closed t)
    (mkUser 12 "customer" just_enquired)
    (mkUpdateBody (Some closed) (Some urgent) None)
    (Some (Samples.ticket open no_resolution))
  = (mkResponse 403 (Some "Access denied") None,
     Some (Samples.ticket open no_resolution)).
Proof.
  apply (put_request_customer_can_only_reopen Samples.t2h 2
           (fun _ t => set_status closed t)
           (mkUser 12 "customer" just_enquired)
           (mkUpdateBody (Some closed) (Some urgent) None)
           (Samples.ticket open no_resolution)).
  - reflexivity.
  - reflexivity.
Defined.

(** *** Comments through the route *)



(** *** Rating through the route *)

(** X19.  Through POST /requests/:id/rating only the owner rates: every other
    requester, an admin too, is answered 403 and the ticket is left as it
    is.  The owner of a ticket that is neither resolved nor closed is
    answered 500 with the message of the model, the ticket left as it is;
    the owner of a resolved or closed ticket is answered 200 and the rating
    is stored with the date of the request. *)
Theorem post_rating_owner_only now count user score_ feedback_ ticket :
  (isOwner ticket user = false ->
   post_rating now count user score_ feedback_ (Some ticket)
   = (mkResponse 403 (Some "Access denied")
        (Some "Only ticket owner can rate the support"), Some ticket))
  /\ (isOwner ticket user = true ->
      status ticket <> resolved -> status ticket <> closed ->
      post_rating now count user score_ feedback_ (Some ticket)
      = (mkResponse 500 (Some "Failed to add rating")
           (Some "Can only rate resolved or closed tickets"), Some ticket))
  /\ (isOwner ticket user = true ->
      status ticket = resolved \/ status ticket = closed ->
      exists stored,
        post_rating now count user score_ feedback_ (Some ticket)
        = (mkResponse 200 None (Some "Rating added successfully"),
           Some stored)
        /\ rating stored
           = mkRating (Some score_) feedback_ (Some (getTime now))
        /\ status stored = status ticket).
Proof.
  unfold post_rating. split; [| split].
  - intros Ho. rewrite Ho. reflexivity.
  - intros Ho Hr Hc. rewrite Ho. cbn [negb].
    unfold addRating. apply ticket_Status_eqb_neq in Hr, Hc.
    rewrite Hr, Hc. reflexivity.
  - intros Ho Hs. rewrite Ho. cbn [negb].
    assert (Hg : negb (Status_eqb (status ticket) resolved)
                 && negb (Status_eqb (status ticket) closed) = false)
      by (destruct Hs as [Hs | Hs]; rewrite Hs; reflexivity).
    unfold addRating. rewrite Hg. cbv zeta.
    match goal with
    | |- context [save now count ?x] =>
        rewrite (surjective_pairing (save now count x)), fst_save
    end.
    eexists. split; [reflexivity |].
    rewrite rating_save, status_save. split; reflexivity.
Qed.

Lemma post_rating_owner_only_witness :
  post_rating Samples.t2h 2 (mkUser 7 "admin" just_enquired) 5 None
    (Some (Samples.ticket resolved Samples.resolved_by_admin))
  = (mkResponse 403 (Some "Access denied")
       (Some "Only ticket owner can rate the support"),
     Some (Samples.ticket resolved Samples.resolved_by_admin))
  /\ post_rating Samples.t2h 2 (mkUser 11 "customer" just_enquired) 5 None
       (Some (Samples.ticket open no_resolution))
     = (mkResponse 500 (Some "Failed to add rating")
          (Some "Can only rate resolved or closed tickets"),
        Some (Samples.ticket open no_resolution)).
Proof.
  destruct (post_rating_owner_only Samples.t2h 2 (mkUser 7 "admin" just_enquired)
              5 None (Samples.ticket resolved Samples.resolved_by_admin))
    as (Hdenied & _ & _).
  destruct (post_rating_owner_only Samples.t2h 2
              (mkUser 11 "customer" just_enquired) 5 None
              (Samples.ticket open no_resolution)) as (_ & Hearly & _).
  split.
  - apply Hdenied. reflexivity.
  - apply Hearly; [reflexivity | simpl; discriminate | simpl; discriminate].
Defined.

(** *** The routes of the admins *)

(** X20.  PUT /requests/:id/resolve and PUT /requests/:id/assign answer 403
    to every requester whose role is not admin and leave the ticket as it
    is.  For an admin, the resolve route resolves the ticket that was found
    whatever its status, a resolved ticket too: it answers 200, and the
    resolution record holds the text, the id of the admin and the date of
    the request. *)
Theorem admin_routes_are_guarded now count user resolutionText agentId found :
  (role user <> "admin" ->
   put_resolve now count user resolutionText found
   = (mkResponse 403 (Some "Access denied")
        (Some "This resource requires admin role"), found)
   /\ put_assign now count user agentId found
      = (mkResponse 403 (Some "Access denied")
           (Some "This resource requires admin role"), found))
  /\ (role user = "admin" ->
      forall ticket,
        found = Some ticket ->
        exists stored,
          put_resolve now count user resolutionText found
          = (mkResponse 200 None (Some "Ticket resolved successfully"),
             Some stored)
          /\ status stored = resolved
          /\ resolution stored
             = mkResolution (Some resolutionText) (Some (Id (userId user)))
                 (Some (getTime now))).
Proof.
  unfold put_resolve, put_assign, authorizeRoles. cbn [existsb orb].
  split.
  - intros Hrole. apply String.eqb_neq in Hrole.
    rewrite Hrole. split; reflexivity.
  - intros Hrole ticket ->. rewrite Hrole. cbn [String.eqb negb orb].
    replace (negb ("admin" =? "admin")%string) with false by reflexivity.
    eexists. split; [reflexivity |].
    rewrite resolve_eq, status_save.
    match goal with
    | |- context [save now count ?x] =>
        destruct (save_skips_resolution now count x) as [Hres _];
          [right; reflexivity |]
    end.
    rewrite Hres. split; reflexivity.
Qed.

Lemma admin_routes_are_guarded_witness :
  put_resolve Samples.t2h 2 (mkUser 11 "customer" just_enquired) "Done"
    (Some (Samples.ticket open no_resolution))
  = (mkResponse 403 (Some "Access denied")
       (Some "This resource requires admin role"),
     Some (Samples.ticket open no_resolution))
  /\ exists stored,
      put_resolve Samples.t2h 2 (mkUser 7 "admin" just_enquired)
        "Resolved again"
        (Some (Samples.ticket resolved Samples.resolved_by_admin))
      = (mkResponse 200 None (Some "Ticket resolved successfully"),
         Some stored)
      /\ resolution stored
         = mkResolution (Some "Resolved again") (Some (Id 7))
             (Some 1700007200000).
Proof.
  destruct (admin_routes_are_guarded Samples.t2h 2
              (mkUser 11 "customer" just_enquired) "Done" 7
              (Some (Samples.ticket open no_resolution))) as [Hdenied _].
  destruct (admin_routes_are_guarded Samples.t2h 2
              (mkUser 7 "admin" just_enquired) "Resolved again" 7
              (Some (Samples.ticket resolved Samples.resolved_by_admin)))
    as [_ Hadmin].
  split.
  - apply Hdenied. simpl. discriminate.
  - destruct (Hadmin eq_refl _ eq_refl) as (stored & Hput & _ & Hres).
    exists stored. split; [exact Hput | exact Hres].
Defined.

(** *** Reading a ticket *)

(** X23.  GET /requests/:id never shows an internal comment to a customer:
    the owner of the ticket, with the role customer, receives the ticket with
    its comments that are not internal, in their order, and nothing else
    changed; a customer who is not the owner receives 403 and no data; an
    admin receives the ticket as it is. *)
Theorem get_request_hides_internal_comments user ticket :
  (role user = "customer" ->
   forall data,
     snd (get_request user (Some ticket)) = Some data ->
     comments data = filter (fun c => negb (isInternal c)) (comments ticket)
     /\ (forall c, In c (comments data) -> isInternal c = false)
     /\ status data = status ticket
     /\ resolution data = resolution ticket)
  /\ (role user = "customer" ->
      (forall id, customerId ticket = Id id -> id <> userId user) ->
      (forall id r, customerId ticket = User id r -> id <> userId user) ->
      get_request user (Some ticket)
      = (mkResponse 403 (Some "Access denied") None, None))
  /\ (role user = "admin" ->
      get_request user (Some ticket) = (mkResponse 200 None None, Some ticket)).
Proof.
  unfold get_request, isAdmin. cbv zeta. split; [| split].
  - intros Hrole data. rewrite Hrole.
    replace ("customer" =? "admin")%string with false by reflexivity.
    replace ("customer" =? "customer")%string with true by reflexivity.
    cbn [negb andb].
    match goal with
    | |- context [if negb ?b && true then _ else _] => destruct b
    end; cbn [negb andb snd]; [| discriminate].
    intros Hd. injection Hd as <-. cbn [comments set_comments].
    repeat split.
    intros c Hin. apply filter_In in Hin. destruct Hin as [_ Hc].
    apply negb_true_iff. exact Hc.
  - intros Hrole Hid Huser. rewrite Hrole.
    replace ("customer" =? "admin")%string with false by reflexivity.
    assert (Hno : match customerId ticket with
                  | Id id => (id =? userId user)%Z
                  | User id _ => (id =? userId user)%Z
                  end = false).
    { destruct (customerId ticket) as [id | id r] eqn:E; apply Z.eqb_neq.
      - apply (Hid id). reflexivity.
      - apply (Huser id r). reflexivity. }
    rewrite Hno. reflexivity.
  - intros Hrole. rewrite Hrole.
    replace ("admin" =? "admin")%string with true by reflexivity.
    replace ("admin" =? "customer")%string with false by reflexivity.
    rewrite andb_false_r. reflexivity.
Qed.

Lemma get_request_hides_internal_comments_witness :
  comments
    (set_comments
       [mkComment "We are looking into it" (User 7 "admin") false []
          1700000100000]
       (Samples.ticket open no_resolution))
  = filter (fun c => negb (isInternal c))
      (comments
         (set_comments
            [mkComment "Customer called twice" (User 7 "admin") true []
               1700000050000;
             mkComment "We are looking into it" (User 7 "admin") false []
               1700000100000]
            (Samples.ticket open no_resolution))).
Proof.
  destruct (get_request_hides_internal_comments
              (mkUser 11 "customer" just_enquired)
              (set_comments
                 [mkComment "Customer called twice" (User 7 "admin") true []
                    1700000050000;
                  mkComment "We are looking into it" (User 7 "admin") false []
                    1700000100000]
                 (Samples.ticket open no_resolution))) as (Hhide & _).
  destruct (Hhide eq_refl
              (set_comments
                 [mkComment "We are looking into it" (User 7 "admin") false []
                    1700000100000]
                 (Samples.ticket open no_resolution)) eq_refl) as (Hc & _).
  exact Hc.
Defined.

End SupportRoutesProperties.

(** ** Properties of the routes of the payments *)

Module PaymentRoutesProperties.

Import Auth.
Import Payment.
Import PaymentRoutes.
Import PaymentLifecycle.
Import PaymentModel.

(** *** Verification *)




(** *** Refunds through the route *)

(** X22.  POST /payments/:id/refund answers 403 to every requester whose
    role is not admin and leaves the payment as it is.  For an admin it
    answers 500 with the message of the model, the payment left as it is,
    when the status is not success or the amount exceeds the amount of the
    payment, and 200 with the refund record stored otherwise. *)
Theorem post_refund_outcomes date random user amount_ reason p :
  (role user <> "admin" ->
   post_refund date random user amount_ reason (Some p)
   = (mkResponse 403 (Some "Access denied")
        (Some "This resource requires admin role"), Some p))
  /\ (role user = "admin" -> status p <> success ->
      post_refund date random user amount_ reason (Some p)
      = (mkResponse 500 (Some "Failed to initiate refund")
           (Some "Can only refund successful payments"), Some p))
  /\ (role user = "admin" -> status p = success -> amount p < amount_ ->
      post_refund date random user amount_ reason (Some p)
      = (mkResponse 500 (Some "Failed to initiate refund")
           (Some "Refund amount cannot exceed payment amount"), Some p))
  /\ (role user = "admin" -> status p = success -> amount_ <= amount p ->
      exists stored,
        post_refund date random user amount_ reason (Some p)
        = (mkResponse 200 None (Some "Refund initiated successfully"),
           Some stored)
        /\ status stored = success
        /\ refund_amount (refundDetails stored) = Some amount_
        /\ refund_status (refundDetails stored) = Some initiated).
Proof.
  unfold post_refund, authorizeRoles. cbn [existsb orb].
  split; [| split; [| split]].
  - intros Hrole. apply String.eqb_neq in Hrole. rewrite Hrole. reflexivity.
  - intros Hrole Hs. rewrite Hrole.
    replace (negb ("admin" =? "admin")%string) with false by reflexivity.
    unfold initiateRefund. apply payment_Status_eqb_neq in Hs. rewrite Hs.
    reflexivity.
  - intros Hrole Hs Hlt. rewrite Hrole.
    replace (negb ("admin" =? "admin")%string) with false by reflexivity.
    unfold initiateRefund. rewrite Hs. cbn [Status_eqb negb].
    apply Z.ltb_lt in Hlt. rewrite Hlt. reflexivity.
  - intros Hrole Hs Hle. rewrite Hrole.
    replace (negb ("admin" =? "admin")%string) with false by reflexivity.
    unfold initiateRefund. rewrite Hs. cbn [Status_eqb negb].
    apply Z.ltb_ge in Hle. rewrite Hle. cbv zeta.
    match goal with
    | |- context [save date random ?x] =>
        rewrite (surjective_pairing (save date random x));
        change (fst (save date random x)) with Fulfilled
    end.
    eexists. split; [reflexivity |].
    rewrite payment_status_save. cbn [status set_refundDetails].
    split; [exact Hs |].
    unfold save, pre_save, update_attempts_count, generate_receipt_number.
    cbn [snd].
    repeat match goal with
    | |- context [if ?b then _ else _] => destruct b
    end; split; reflexivity.
Qed.

Lemma post_refund_outcomes_witness :
  post_refund Samples.t0 4821 (mkUser 11 "customer" paid_initial) 50000
    "Booking cancelled" (Some (Samples.payment success))
  = (mkResponse 403 (Some "Access denied")
       (Some "This resource requires admin role"),
     Some (Samples.payment success))
  /\ post_refund Samples.t0 4821 (mkUser 7 "admin" just_enquired) 150000
       "Booking cancelled" (Some (Samples.payment success))
     = (mkResponse 500 (Some "Failed to initiate refund")
          (Some "Refund amount cannot exceed payment amount"),
        Some (Samples.payment success)).
Proof.
  destruct (post_refund_outcomes Samples.t0 4821
              (mkUser 11 "customer" paid_initial) 50000 "Booking cancelled"
              (Samples.payment success)) as (Hdenied & _).
  destruct (post_refund_outcomes Samples.t0 4821
              (mkUser 7 "admin" just_enquired) 150000 "Booking cancelled"
              (Samples.payment success)) as (_ & _ & Hexceeds & _).
  split.
  - apply Hdenied. simpl. discriminate.
  - apply Hexceeds; [reflexivity | reflexivity | simpl; lia].
Defined.

End PaymentRoutesProperties.
